(** * The debt book: a ledger of customers and their transactions

    A shallow embedding of the simulated backend ([utils/api.ts]), of the
    hashing helper ([utils/crypto.ts]), of the derived totals shown by the
    customer list and the customer detail view, and of the profile handler
    of [App.tsx], together with the properties the specification states
    about them. It goes on with the loading of the database, the customer
    handlers of [App.tsx], the forms of [Auth.tsx], the overview and the
    history of a customer, and with properties of the code beyond the
    specification.

    Conventions of the embedding.
    - A JavaScript string is a [string] of 8-bit characters, read as the
      code units 0..255: the range on which [btoa] is defined.
    - A JavaScript object used as a dictionary ([db.customers], the browser's
      [localStorage]) is a [gmap] keyed by strings.
    - An [async] function is the state transformer it performs once its
      artificial delay has elapsed: every body runs without interruption
      after [await randomDelay()], since [crypto.subtle.digest] is the only
      other awaited call and is taken as a function.
    - An exception is an outcome [Throw e w] that keeps the state [w] in
      which it was raised.
    - [Date.now()] is an input of the call that reads it.
    - The API stores quantities and prices without computing on them, so
      the data model is parametric in the type of numbers; the totals take
      the operators [+] and [*] as parameters and are studied over exact
      numbers, with an example in binary64. *)

From Stdlib Require Import ZArith Lia Bool List Ascii String.
From Stdlib Require Import Floats.PrimFloat.
From Stdlib Require Strings.Byte HexadecimalString.
From stdpp Require Import base option list gmap fin_maps strings pretty.

Local Open Scope string_scope.
Local Open Scope list_scope.

(** ** Strings *)

Module Str.

(** [String.prototype.toLowerCase] on the code units 0..255: the letters
    A-Z and the accented capitals U+00C0..U+00DE (the multiplication sign
    U+00D7 apart) move up by 32, every other unit is kept. *)
Definition lower_char (c : ascii) : ascii :=
  let n := N_of_ascii c in
  if ((65 <=? n)%N && (n <=? 90)%N)
     || ((192 <=? n)%N && (n <=? 222)%N && negb (n =? 215)%N)
  then ascii_of_N (n + 32) else c.

Fixpoint toLowerCase (s : string) : string :=
  match s with
  | EmptyString => EmptyString
  | String c r => String (lower_char c) (toLowerCase r)
  end.

(** White space and line terminators among the code units 0..255. *)
Definition is_space (c : ascii) : bool :=
  let n := N_of_ascii c in
  ((9 <=? n)%N && (n <=? 13)%N) || (n =? 32)%N || (n =? 160)%N.

Fixpoint trimStart (s : string) : string :=
  match s with
  | String c r => if is_space c then trimStart r else s
  | EmptyString => EmptyString
  end.

Fixpoint trimEnd (s : string) : string :=
  match s with
  | EmptyString => EmptyString
  | String c r =>
      match trimEnd r with
      | EmptyString => if is_space c then EmptyString else String c EmptyString
      | r' => String c r'
      end
  end.

(** [String.prototype.trim]. *)
Definition trim (s : string) : string := trimEnd (trimStart s).

(** JavaScript's [!s] on a string: only the empty string is falsy. *)
Definition falsy (s : string) : bool :=
  match s with EmptyString => true | _ => false end.

(** Two strings are the same up to letter case when their lower-case
    forms coincide: the comparison [a.toLowerCase() === b.toLowerCase()]
    of the source. *)
Definition same_ignoring_case (a b : string) : Prop :=
  toLowerCase a = toLowerCase b.

(** A letter-case variation changes characters one by one, each into a
    character with the same lower-case form. *)
Inductive case_variant : string -> string -> Prop :=
| cv_empty : case_variant EmptyString EmptyString
| cv_char a b s t :
    lower_char a = lower_char b -> case_variant s t ->
    case_variant (String a s) (String b t).

End Str.

(** ** Data model ([types.ts]) *)

Module Transaction.
Record t {number : Type} : Type := Build
  { id : string;
    productName : string;
    quantity : number;
    amount : number;   (* price per item *)
    isPaid : bool;
    date : string }.
Arguments t : clear implicits.
Arguments Build {number}.
End Transaction.

Module Customer.
Record t {number : Type} : Type := Build
  { id : string;
    name : string;
    transactions : list (Transaction.t number) }.
Arguments t : clear implicits.
Arguments Build {number}.
End Customer.

Module User.
Record t : Type := Build
  { username : string;
    passwordHash : string;
    recoveryQuestion : string;
    recoveryAnswerHash : string }.
End User.

(** ** Array helpers *)

(** [Array.prototype.findIndex]; [None] stands for the result [-1]. *)
Fixpoint findIndex {A : Type} (p : A -> bool) (l : list A) : option nat :=
  match l with
  | [] => None
  | x :: r => if p x then Some 0 else option_map S (findIndex p r)
  end.

(** ** The database and the browser storage that mirrors it *)

Section Store.
Context {number : Type}.

Record Database : Type :=
  { users : list User.t;
    customers : gmap string (list (Customer.t number)) (* keyed by username *) }.

(** [localStorage]: the entry ['debtBookUsers'] and the entries
    ['debtBookData_' + username]. [JSON.stringify] followed by
    [JSON.parse] is the identity on the records stored here. *)
Record LocalStorage : Type :=
  { debtBookUsers : option (list User.t);
    debtBookData : gmap string (list (Customer.t number)) }.

Record World : Type :=
  { db : Database;
    localStorage : LocalStorage }.

End Store.
Arguments Database : clear implicits.
Arguments LocalStorage : clear implicits.
Arguments World : clear implicits.

(** ** Errors *)

(** [new Error(message)] thrown by the API, and the [TypeError] of a
    property access on [undefined]. *)
Inductive Error : Type :=
| Thrown (message : string)
| TypeError.

Definition UserNotFound : Error := Thrown "User not found.".
Definition IncorrectPassword : Error := Thrown "Incorrect password.".
(** thrown by [register] *)
Definition UsernameTaken : Error := Thrown "Username is already taken.".
(** thrown by [updateUsername] *)
Definition UsernameTakenOnRename : Error := Thrown "This username is already taken.".
Definition RecoveryAnswerIncorrect : Error :=
  Thrown "The answer to your security question is incorrect.".
(** thrown by [updateUsername] for a token that resolves to no user *)
Definition InvalidSession : Error := Thrown "Invalid session. Please log in again.".
Definition Unauthorized : Error := Thrown "Unauthorized".
Definition CustomerNotFound : Error := Thrown "Customer not found".
Definition TransactionNotFound : Error := Thrown "Transaction not found".

(** ** State and exceptions *)

Inductive Outcome (S A : Type) : Type :=
| Return (a : A) (s : S)
| Throw (e : Error) (s : S).
Arguments Return {S A}.
Arguments Throw {S A}.

Definition M (S A : Type) : Type := S -> Outcome S A.

Definition ret {S A} (a : A) : M S A := fun s => Return a s.
Definition throw {S A} (e : Error) : M S A := fun s => Throw e s.
Definition bind {S A B} (m : M S A) (k : A -> M S B) : M S B :=
  fun s => match m s with
           | Return a s' => k a s'
           | Throw e s' => Throw e s'
           end.
Definition get {S} : M S S := fun s => Return s s.
Definition put {S} (s : S) : M S unit := fun _ => Return tt s.

Notation "'let!' x ':=' m 'in' k" := (bind m (fun x => k))
  (at level 10, x name, m at level 100, k at level 200).

(** The state an outcome leaves behind. *)
Definition state_of {S A} (o : Outcome S A) : S :=
  match o with Return _ s => s | Throw _ s => s end.

(** ** Platform functions *)

(** [Number.prototype.toString] on the integer that [Date.now()] returns:
    its decimal digits. *)
Definition toString (n : N) : string := pretty n.

(** ** Inputs of the API *)

Module UserData.
(** the argument of [register] *)
Record t : Type := Build
  { username : string;
    recoveryQuestion : string;
    password : string;
    recoveryAnswer : string }.
End UserData.

Module TxData.
(** the argument [txData] of [addTransaction] *)
Record t {number : Type} : Type := Build
  { productName : string;
    quantity : number;
    price : number;
    date : string }.
Arguments t : clear implicits.
Arguments Build {number}.
End TxData.

(** ** The simulated backend ([utils/api.ts]) *)

Section Api.
Context {number : Type}.

(** [hashString] of [utils/crypto.ts]: the hexadecimal SHA-256 digest of
    the UTF-8 encoding of its argument. Nothing below depends on more
    than its being a function. *)
Variable hashString : string -> string.

(** [btoa] and [atob] of the browser. [atob] throws on a string that is
    not Base64, which the source catches: [None]. *)
Variable btoa : string -> string.
Variable atob : string -> option string.

(** [new Date(d + 'T00:00:00').toISOString()]. On a text that is no date
    the platform throws a [RangeError], before any write; the model takes
    the rendering as a function and leaves that case out. *)
Variable isoDate : string -> string.

Abbreviation Db := (Database number).
Abbreviation W := (World number).
Abbreviation Customers := (list (Customer.t number)).

Definition getDb : M W Db := fun w => Return (db w) w.

Definition setUsers (us : list User.t) : M W unit :=
  fun w => Return tt
    {| db := {| users := us; customers := customers (db w) |};
       localStorage := localStorage w |}.

Definition setCustomers (m : gmap string Customers) : M W unit :=
  fun w => Return tt
    {| db := {| users := users (db w); customers := m |};
       localStorage := localStorage w |}.

Definition persistUsers : M W unit :=
  fun w => Return tt
    {| db := db w;
       localStorage :=
         {| debtBookUsers := Some (users (db w));
            debtBookData := debtBookData (localStorage w) |} |}.

Definition persistCustomers (username : string) : M W unit :=
  fun w =>
    match customers (db w) !! username with
    | Some cs =>
        Return tt
          {| db := db w;
             localStorage :=
               {| debtBookUsers := debtBookUsers (localStorage w);
                  debtBookData := <[username := cs]> (debtBookData (localStorage w)) |} |}
    | None => Return tt w
    end.

Definition removeCustomerData (username : string) : M W unit :=
  fun w => Return tt
    {| db := db w;
       localStorage :=
         {| debtBookUsers := debtBookUsers (localStorage w);
            debtBookData := delete username (debtBookData (localStorage w)) |} |}.

(** [db.customers[username]] where the source goes on to call a method
    of the result: a [TypeError] when the entry is missing. *)
Definition customersOf (username : string) : M W Customers :=
  let! d := getDb in
  match customers d !! username with
  | Some cs => ret cs
  | None => throw TypeError
  end.

Definition getUsernameFromToken (token : string) : M W (option string) :=
  let! d := getDb in
  match atob token with
  | Some username =>
      ret (if existsb (fun u => String.eqb (User.username u) username) (users d)
           then Some username else None)
  | None => ret None
  end.

(** [const username = getUsernameFromToken(token); if (!username) throw ...]:
    [null] and the empty string are both falsy. *)
Definition authenticate (e : Error) (token : string) : M W string :=
  let! username := getUsernameFromToken token in
  match username with
  | Some username => if Str.falsy username then throw e else ret username
  | None => throw e
  end.

Definition matches (username : string) (u : User.t) : bool :=
  String.eqb (Str.toLowerCase (User.username u)) (Str.toLowerCase username).

(** *** Authentication *)

Definition login (username password : string) : M W (string * string) :=
  let! d := getDb in
  match find (matches username) (users d) with
  | None => throw UserNotFound
  | Some user =>
      let passwordHash := hashString password in
      if negb (String.eqb (User.passwordHash user) passwordHash)
      then throw IncorrectPassword
      else
        let token := btoa (User.username user) in
        ret (token, User.username user)
  end.

Definition register (userData : UserData.t) : M W (string * string) :=
  let! d := getDb in
  if existsb (matches (UserData.username userData)) (users d)
  then throw UsernameTaken
  else
    let passwordHash := hashString (UserData.password userData) in
    let recoveryAnswerHash :=
      hashString (Str.toLowerCase (UserData.recoveryAnswer userData)) in
    let newUser :=
      {| User.username := UserData.username userData;
         User.recoveryQuestion := UserData.recoveryQuestion userData;
         User.passwordHash := passwordHash;
         User.recoveryAnswerHash := recoveryAnswerHash |} in
    let! _ := setUsers (users d ++ [newUser]) in
    let! _ := setCustomers (<[User.username newUser := []]> (customers d)) in
    let! _ := persistUsers in
    let! _ := persistCustomers (User.username newUser) in
    let token := btoa (User.username newUser) in
    ret (token, User.username newUser).

Definition findUserForRecovery (username : string) : M W User.t :=
  let! d := getDb in
  match find (matches username) (users d) with
  | None => throw UserNotFound
  | Some user => ret user
  end.

Definition verifyRecoveryAnswer (username answer : string) : M W bool :=
  let! d := getDb in
  let user := find (matches username) (users d) in
  let answerHash := hashString (Str.toLowerCase answer) in
  match user with
  | None => throw RecoveryAnswerIncorrect
  | Some user =>
      if negb (String.eqb (User.recoveryAnswerHash user) answerHash)
      then throw RecoveryAnswerIncorrect
      else ret true
  end.

Definition setPasswordHash (h : string) (u : User.t) : User.t :=
  {| User.username := User.username u;
     User.passwordHash := h;
     User.recoveryQuestion := User.recoveryQuestion u;
     User.recoveryAnswerHash := User.recoveryAnswerHash u |}.

Definition setUsername (n : string) (u : User.t) : User.t :=
  {| User.username := n;
     User.passwordHash := User.passwordHash u;
     User.recoveryQuestion := User.recoveryQuestion u;
     User.recoveryAnswerHash := User.recoveryAnswerHash u |}.

Definition resetPassword (username newPassword : string) : M W unit :=
  let! d := getDb in
  match findIndex (matches username) (users d) with
  | None => throw UserNotFound
  | Some userIndex =>
      let! _ := setUsers (alter (setPasswordHash (hashString newPassword)) userIndex (users d)) in
      persistUsers
  end.

Definition updateUsername (token newUsername : string) : M W (string * string) :=
  let! oldUsername := authenticate InvalidSession token in
  let! d := getDb in
  if existsb (matches newUsername) (users d)
  then throw UsernameTakenOnRename
  else
    match findIndex (fun u => String.eqb (User.username u) oldUsername) (users d) with
    | None => throw TypeError
    | Some userIndex =>
        let! _ := setUsers (alter (setUsername newUsername) userIndex (users d)) in
        (* migrate customer data *)
        let! _ :=
          setCustomers
            (delete oldUsername
               (<[newUsername := default [] (customers d !! oldUsername)]> (customers d))) in
        (* persist changes *)
        let! _ := persistUsers in
        let! _ := persistCustomers newUsername in
        let! _ := removeCustomerData oldUsername in
        let newToken := btoa newUsername in
        ret (newToken, newUsername)
    end.

(** *** Customer data *)

Definition getCustomers (token : string) : M W Customers :=
  let! username := authenticate Unauthorized token in
  let! d := getDb in
  ret (default [] (customers d !! username)).

Definition addCustomer (now : N) (token name : string) : M W (Customer.t number) :=
  let! username := authenticate Unauthorized token in
  let newCustomer :=
    {| Customer.id := toString now; Customer.name := name; Customer.transactions := [] |} in
  let! cs := customersOf username in
  let! d := getDb in
  let! _ := setCustomers (<[username := cs ++ [newCustomer]]> (customers d)) in
  let! _ := persistCustomers username in
  ret newCustomer.

Definition hasId (customerId : string) (c : Customer.t number) : bool :=
  String.eqb (Customer.id c) customerId.

Definition txHasId (transactionId : string) (t : Transaction.t number) : bool :=
  String.eqb (Transaction.id t) transactionId.

Definition setName (n : string) (c : Customer.t number) : Customer.t number :=
  {| Customer.id := Customer.id c;
     Customer.name := n;
     Customer.transactions := Customer.transactions c |}.

(** [{ ...customer, transactions: ts }] *)
Definition setTransactions (ts : list (Transaction.t number)) (c : Customer.t number)
  : Customer.t number :=
  {| Customer.id := Customer.id c;
     Customer.name := Customer.name c;
     Customer.transactions := ts |}.

(** [{ ...t, isPaid: !t.isPaid }] *)
Definition togglePaid (t : Transaction.t number) : Transaction.t number :=
  {| Transaction.id := Transaction.id t;
     Transaction.productName := Transaction.productName t;
     Transaction.quantity := Transaction.quantity t;
     Transaction.amount := Transaction.amount t;
     Transaction.isPaid := negb (Transaction.isPaid t);
     Transaction.date := Transaction.date t |}.

(** [db.customers[username].findIndex(c => c.id === customerId)] followed
    by the read of [db.customers[username][customerIndex]]. *)
Definition findCustomer (username customerId : string)
  : M W (nat * Customer.t number) :=
  let! cs := customersOf username in
  match findIndex (hasId customerId) cs with
  | None => throw CustomerNotFound
  | Some customerIndex =>
      match cs !! customerIndex with
      | Some customer => ret (customerIndex, customer)
      | None => throw TypeError
      end
  end.

(** [db.customers[username][customerIndex] = c] *)
Definition storeCustomer (username : string) (customerIndex : nat)
    (c : Customer.t number) : M W unit :=
  let! cs := customersOf username in
  let! d := getDb in
  setCustomers (<[username := <[customerIndex := c]> cs]> (customers d)).

Definition renameCustomer (token customerId newName : string)
  : M W (Customer.t number) :=
  let! username := authenticate Unauthorized token in
  let! found := findCustomer username customerId in
  let (customerIndex, customer) := found in
  let! _ := storeCustomer username customerIndex (setName newName customer) in
  let! _ := persistCustomers username in
  ret (setName newName customer).

Definition deleteCustomer (token customerId : string) : M W unit :=
  let! username := authenticate Unauthorized token in
  let! cs := customersOf username in
  let! d := getDb in
  let! _ :=
    setCustomers
      (<[username := List.filter (fun c => negb (hasId customerId c)) cs]> (customers d)) in
  persistCustomers username.

Definition addTransaction (now : N) (token customerId : string)
    (txData : TxData.t number) : M W (Transaction.t number) :=
  let! username := authenticate Unauthorized token in
  let! found := findCustomer username customerId in
  let (customerIndex, customer) := found in
  let newTransaction :=
    {| Transaction.id := toString now;
       Transaction.productName := TxData.productName txData;
       Transaction.quantity := TxData.quantity txData;
       Transaction.amount := TxData.price txData;
       Transaction.isPaid := false;
       Transaction.date := isoDate (TxData.date txData) |} in
  let updatedTransactions := newTransaction :: Customer.transactions customer in
  let! _ :=
    storeCustomer username customerIndex (setTransactions updatedTransactions customer) in
  let! _ := persistCustomers username in
  ret newTransaction.

(** The variable [updatedTransaction] after the [map] of
    [toggleTransactionPaid]: assigned at every transaction with the
    identifier, so the last one stays. *)
Definition lastToggled (transactionId : string) (ts : list (Transaction.t number))
  : option (Transaction.t number) :=
  fold_left
    (fun updatedTransaction t =>
       if txHasId transactionId t then Some (togglePaid t) else updatedTransaction)
    ts None.

Definition toggleTransactionPaid (token customerId transactionId : string)
  : M W (Transaction.t number) :=
  let! username := authenticate Unauthorized token in
  let! found := findCustomer username customerId in
  let (customerIndex, customer) := found in
  let updatedTransactions :=
    map (fun t => if txHasId transactionId t then togglePaid t else t)
      (Customer.transactions customer) in
  match lastToggled transactionId (Customer.transactions customer) with
  | None => throw TransactionNotFound
  | Some updatedTransaction =>
      let! _ :=
        storeCustomer username customerIndex
          (setTransactions updatedTransactions customer) in
      let! _ := persistCustomers username in
      ret updatedTransaction
  end.

Definition deleteTransaction (token customerId transactionId : string) : M W unit :=
  let! username := authenticate Unauthorized token in
  let! found := findCustomer username customerId in
  let (customerIndex, customer) := found in
  match findIndex (txHasId transactionId) (Customer.transactions customer) with
  | None => throw TransactionNotFound
  | Some _ =>
      let updatedTransactions :=
        List.filter (fun t => negb (txHasId transactionId t)) (Customer.transactions customer) in
      let! _ :=
        storeCustomer username customerIndex
          (setTransactions updatedTransactions customer) in
      persistCustomers username
  end.

(** *** The API as a whole *)

Inductive Call : Type :=
| Login (username password : string)
| Register (userData : UserData.t)
| FindUserForRecovery (username : string)
| VerifyRecoveryAnswer (username answer : string)
| ResetPassword (username newPassword : string)
| UpdateUsername (token newUsername : string)
| GetCustomers (token : string)
| AddCustomer (now : N) (token name : string)
| RenameCustomer (token customerId newName : string)
| DeleteCustomer (token customerId : string)
| AddTransaction (now : N) (token customerId : string) (txData : TxData.t number)
| ToggleTransactionPaid (token customerId transactionId : string)
| DeleteTransaction (token customerId transactionId : string).

Inductive Value : Type :=
| VSession (token username : string)
| VUser (u : User.t)
| VBool (b : bool)
| VVoid
| VCustomers (cs : Customers)
| VCustomer (c : Customer.t number)
| VTransaction (t : Transaction.t number).

Definition session (p : string * string) : Value := VSession (fst p) (snd p).

Definition fmap_M {A B} (f : A -> B) (m : M W A) : M W B :=
  let! a := m in ret (f a).

Definition exec (c : Call) : M W Value :=
  match c with
  | Login u p => fmap_M session (login u p)
  | Register d => fmap_M session (register d)
  | FindUserForRecovery u => fmap_M VUser (findUserForRecovery u)
  | VerifyRecoveryAnswer u a => fmap_M VBool (verifyRecoveryAnswer u a)
  | ResetPassword u p => fmap_M (fun _ => VVoid) (resetPassword u p)
  | UpdateUsername t n => fmap_M session (updateUsername t n)
  | GetCustomers t => fmap_M VCustomers (getCustomers t)
  | AddCustomer now t n => fmap_M VCustomer (addCustomer now t n)
  | RenameCustomer t c n => fmap_M VCustomer (renameCustomer t c n)
  | DeleteCustomer t c => fmap_M (fun _ => VVoid) (deleteCustomer t c)
  | AddTransaction now t c d => fmap_M VTransaction (addTransaction now t c d)
  | ToggleTransactionPaid t c x => fmap_M VTransaction (toggleTransactionPaid t c x)
  | DeleteTransaction t c x => fmap_M (fun _ => VVoid) (deleteTransaction t c x)
  end.

End Api.

(** ** Derived totals ([CustomerList.tsx], [CustomerDetail.tsx]) *)

Section Totals.
Context {number : Type}.

(** The JavaScript operators [+] and [*] and the literal [0]. *)
Variable zero : number.
Variables add mul : number -> number -> number.

Definition unpaid (t : Transaction.t number) : bool := negb (Transaction.isPaid t).

(** [(sum, t) => sum + (t.amount * t.quantity)] *)
Definition addLine (sum : number) (t : Transaction.t number) : number :=
  add sum (mul (Transaction.amount t) (Transaction.quantity t)).

(** [calculateTotalDue] of the customer list. *)
Definition calculateTotalDue (customer : Customer.t number) : number :=
  fold_left addLine (List.filter unpaid (Customer.transactions customer)) zero.

Record Stats : Type := { totalDue : number; totalSpent : number }.

(** [stats] of the customer detail view. *)
Definition stats (customer : Customer.t number) : Stats :=
  let totalDue :=
    fold_left addLine (List.filter unpaid (Customer.transactions customer)) zero in
  let totalSpent :=
    fold_left addLine (Customer.transactions customer) zero in
  {| totalDue := totalDue; totalSpent := totalSpent |}.


End Totals.

(** ** The profile handler of [App.tsx] *)

Module App.
Section Handler.
Context {number : Type}.
Variable btoa : string -> string.
Variable atob : string -> option string.

(** The part of the component state the handler touches, and the
    [sessionStorage] entry ['authToken']. *)
Record State : Type :=
  { authToken : option string;
    currentUser : option string;
    isEditingProfile : bool;
    sessionAuthToken : option string }.

Record Result : Type := { success : bool; error : option Error }.

Definition succeeded : Result := {| success := true; error := None |}.
Definition failed (e : Error) : Result := {| success := false; error := Some e |}.

Definition handleLoginSuccess (token username : string) (st : State) : State :=
  {| authToken := Some token;
     currentUser := Some username;
     isEditingProfile := isEditingProfile st;
     sessionAuthToken := Some token |}.

Definition setIsEditingProfile (b : bool) (st : State) : State :=
  {| authToken := authToken st;
     currentUser := currentUser st;
     isEditingProfile := b;
     sessionAuthToken := sessionAuthToken st |}.

(** [trimmedUsername.toLowerCase() === currentUser?.toLowerCase()] *)
Definition sameAsCurrent (trimmedUsername : string) (st : State) : bool :=
  match currentUser st with
  | Some currentUser =>
      String.eqb (Str.toLowerCase trimmedUsername) (Str.toLowerCase currentUser)
  | None => false
  end.

Definition handleUpdateUsername (newUsername : string) (st : State) (w : World number)
  : Result * State * World number :=
  match authToken st with
  | None => (failed (Thrown "Not authenticated"), st, w)
  | Some token =>
      if Str.falsy token then (failed (Thrown "Not authenticated"), st, w)
      else
        let trimmedUsername := Str.trim newUsername in
        if sameAsCurrent trimmedUsername st
        then (succeeded, setIsEditingProfile false st, w)
        else if Str.falsy trimmedUsername
        then (failed (Thrown "Username cannot be empty."), st, w)
        else
          match updateUsername btoa atob token trimmedUsername w with
          | Return (newToken, updatedUsername) w' =>
              (succeeded,
               setIsEditingProfile false (handleLoginSuccess newToken updatedUsername st),
               w')
          | Throw e w' => (failed e, st, w')
          end
  end.

End Handler.
End App.

(** ** States of the store *)

Section States.
Context {number : Type}.
Variable hashString : string -> string.
Variable btoa : string -> string.
Variable atob : string -> option string.
Variable isoDate : string -> string.

Abbreviation W := (World number).

(** A browser that has never run the application. *)
Definition empty_world : W :=
  {| db := {| users := []; customers := ∅ |};
     localStorage := {| debtBookUsers := None; debtBookData := ∅ |} |}.

(** The states the API operations lead to. *)
Inductive reachable : W -> Prop :=
| reachable_empty : reachable empty_world
| reachable_call w c :
    reachable w -> reachable (state_of (exec hashString btoa atob isoDate c w)).



(** The token is one that the API accepts as a session of [username]. *)
Definition logged_in (w : W) (token username : string) : Prop :=
  atob token = Some username /\
  username <> "" /\
  exists u, In u (users (db w)) /\ User.username u = username.

(** User names are unique under case-insensitive comparison. *)
Definition usernames_unique (w : W) : Prop :=
  NoDup (map (fun u => Str.toLowerCase (User.username u)) (users (db w))).





(** The browser storage holds what the database holds for [username]. *)
Definition mirrored (w : W) (username : string) : Prop :=
  debtBookData (localStorage w) !! username = customers (db w) !! username.

(** What every reachable state satisfies: user names are unique up to
    letter case, every user has a customer list, and the browser storage
    holds the directory and the customer lists of the database. *)
Definition well_formed (w : World number) : Prop :=
  usernames_unique w /\
  (forall u, In u (users (db w)) -> is_Some (customers (db w) !! User.username u)) /\
  debtBookData (localStorage w) = customers (db w) /\
  (users (db w) <> [] -> debtBookUsers (localStorage w) = Some (users (db w))).

(** [storeCustomer] followed by [persistCustomers]: the end of every
    operation that changes a customer. *)
Definition stored (w : World number) (username : string) (cs' : list (Customer.t number)) : World number :=
  {| db := {| users := users (db w);
              customers := <[username := cs']> (customers (db w)) |};
     localStorage :=
       {| debtBookUsers := debtBookUsers (localStorage w);
          debtBookData := <[username := cs']> (debtBookData (localStorage w)) |} |}.

(** The state [updateUsername] leaves when it returns. *)
Definition renamed (w : World number) (i : nat) (oldUsername newUsername : string) : World number :=
  let L := default [] (customers (db w) !! oldUsername) in
  {| db :=
       {| users := alter (setUsername newUsername) i (users (db w));
          customers := delete oldUsername (<[newUsername := L]> (customers (db w))) |};
     localStorage :=
       {| debtBookUsers := Some (alter (setUsername newUsername) i (users (db w)));
          debtBookData :=
            delete oldUsername (<[newUsername := L]> (debtBookData (localStorage w))) |} |}.

(** The state [register] leaves when it returns. *)
Definition registered (w : World number) (userData : UserData.t) : World number :=
  let newUser :=
    {| User.username := UserData.username userData;
       User.passwordHash := hashString (UserData.password userData);
       User.recoveryQuestion := UserData.recoveryQuestion userData;
       User.recoveryAnswerHash :=
         hashString (Str.toLowerCase (UserData.recoveryAnswer userData)) |} in
  {| db :=
       {| users := users (db w) ++ [newUser];
          customers := <[UserData.username userData := []]> (customers (db w)) |};
     localStorage :=
       {| debtBookUsers := Some (users (db w) ++ [newUser]);
          debtBookData :=
            <[UserData.username userData := []]> (debtBookData (localStorage w)) |} |}.

(** The state [resetPassword] leaves when it returns. *)
Definition withPassword (w : World number) (i : nat) (newPassword : string) : World number :=
  let us := alter (setPasswordHash (hashString newPassword)) i (users (db w)) in
  {| db := {| users := us; customers := customers (db w) |};
     localStorage :=
       {| debtBookUsers := Some us;
          debtBookData := debtBookData (localStorage w) |} |}.

(** What a call does to the state: nothing, when it only reads or when it
    throws, or the writes of the one operation that returned. *)
Inductive change (w : World number) : Call (number := number) -> World number -> Prop :=
| change_none c : change w c w
| change_register userData :
    (forall u, In u (users (db w)) ->
               ~ Str.same_ignoring_case (UserData.username userData) (User.username u)) ->
    change w (Register userData) (registered w userData)
| change_resetPassword username newPassword i u :
    users (db w) !! i = Some u ->
    change w (ResetPassword username newPassword) (withPassword w i newPassword)
| change_updateUsername token newUsername i u :
    users (db w) !! i = Some u ->
    (forall v, In v (users (db w)) ->
               ~ Str.same_ignoring_case newUsername (User.username v)) ->
    change w (UpdateUsername token newUsername)
      (renamed w i (User.username u) newUsername)
| change_addCustomer now token name username cs :
    customers (db w) !! username = Some cs ->
    change w (AddCustomer now token name)
      (stored w username
         (cs ++ [ {| Customer.id := toString now; Customer.name := name;
                     Customer.transactions := [] |} ]))
| change_renameCustomer token customerId newName username cs i c :
    customers (db w) !! username = Some cs -> cs !! i = Some c ->
    change w (RenameCustomer token customerId newName)
      (stored w username (<[i := setName newName c]> cs))
| change_deleteCustomer token customerId username cs :
    customers (db w) !! username = Some cs ->
    change w (DeleteCustomer token customerId)
      (stored w username (List.filter (fun c => negb (hasId customerId c)) cs))
| change_addTransaction now token customerId txData username cs i c :
    customers (db w) !! username = Some cs -> cs !! i = Some c ->
    change w (AddTransaction now token customerId txData)
      (stored w username
         (<[i := setTransactions
                   ({| Transaction.id := toString now;
                       Transaction.productName := TxData.productName txData;
                       Transaction.quantity := TxData.quantity txData;
                       Transaction.amount := TxData.price txData;
                       Transaction.isPaid := false;
                       Transaction.date := isoDate (TxData.date txData) |}
                      :: Customer.transactions c) c]> cs))
| change_toggleTransactionPaid token customerId transactionId username cs i c :
    customers (db w) !! username = Some cs -> cs !! i = Some c ->
    change w (ToggleTransactionPaid token customerId transactionId)
      (stored w username
         (<[i := setTransactions
                   (map (fun t => if txHasId transactionId t then togglePaid t else t)
                      (Customer.transactions c)) c]> cs))
| change_deleteTransaction token customerId transactionId username cs i c :
    customers (db w) !! username = Some cs -> cs !! i = Some c ->
    change w (DeleteTransaction token customerId transactionId)
      (stored w username
         (<[i := setTransactions
                   (List.filter (fun t => negb (txHasId transactionId t))
                      (Customer.transactions c)) c]> cs)).

End States.

(** ** Base64, as [btoa] and [atob] compute it *)

Module Base64.

Definition encode_digit (n : N) : ascii :=
  if (n <? 26)%N then ascii_of_N (n + 65)
  else if (n <? 52)%N then ascii_of_N (n + 71)
  else if (n <? 62)%N then ascii_of_N (n - 4)
  else if (n =? 62)%N then "+"%char
  else "/"%char.

Definition decode_digit (c : ascii) : option N :=
  let n := N_of_ascii c in
  if (65 <=? n)%N && (n <=? 90)%N then Some (n - 65)%N
  else if (97 <=? n)%N && (n <=? 122)%N then Some (n - 71)%N
  else if (48 <=? n)%N && (n <=? 57)%N then Some (n + 4)%N
  else if (n =? 43)%N then Some 62%N
  else if (n =? 47)%N then Some 63%N
  else None.

(** The 6-bit digits of a string: three characters give four digits, a
    rest of one character two digits, a rest of two characters three. *)
Fixpoint digits_of (s : string) : list N :=
  match s with
  | EmptyString => []
  | String a EmptyString =>
      let a := N_of_ascii a in
      [a / 4; (a mod 4) * 16]%N
  | String a (String b EmptyString) =>
      let a := N_of_ascii a in
      let b := N_of_ascii b in
      [a / 4; (a mod 4) * 16 + b / 16; (b mod 16) * 4]%N
  | String a (String b (String c r)) =>
      let a := N_of_ascii a in
      let b := N_of_ascii b in
      let c := N_of_ascii c in
      (a / 4 :: (a mod 4) * 16 + b / 16 :: (b mod 16) * 4 + c / 64 :: c mod 64
         :: digits_of r)%N
  end.

(** The padding that completes the last group of four characters. *)
Definition padding (digits : nat) : list ascii :=
  match digits mod 4 with
  | 2 => ["="; "="]%char
  | 3 => ["="]%char
  | _ => []
  end.

Definition btoa (s : string) : string :=
  let ds := digits_of s in
  string_of_list_ascii (map encode_digit ds ++ padding (length ds)).

(** ASCII white space, which [atob] skips. *)
Definition is_ascii_space (c : ascii) : bool :=
  let n := N_of_ascii c in
  (n =? 9)%N || (n =? 10)%N || (n =? 12)%N || (n =? 13)%N || (n =? 32)%N.

(** Drops one or two ["="] at the end. *)
Fixpoint drop_padding (l : list ascii) : list ascii :=
  match l with
  | [] => []
  | c :: r =>
      if Ascii.eqb c "=" && (match r with
                             | [] => true
                             | [c'] => Ascii.eqb c' "="
                             | _ => false
                             end)
      then []
      else c :: drop_padding r
  end.

Fixpoint read_digits (l : list ascii) : option (list N) :=
  match l with
  | [] => Some []
  | c :: r =>
      match decode_digit c, read_digits r with
      | Some d, Some ds => Some (d :: ds)
      | _, _ => None
      end
  end.

(** The bytes of a list of digits; the bits left over at the end are
    discarded. *)
Fixpoint bytes_of (ds : list N) : string :=
  match ds with
  | d1 :: d2 :: d3 :: d4 :: r =>
      String (ascii_of_N (d1 * 4 + d2 / 16))
        (String (ascii_of_N ((d2 mod 16) * 16 + d3 / 4))
           (String (ascii_of_N ((d3 mod 4) * 64 + d4)) (bytes_of r)))
  | [d1; d2; d3] =>
      String (ascii_of_N (d1 * 4 + d2 / 16))
        (String (ascii_of_N ((d2 mod 16) * 16 + d3 / 4)) EmptyString)
  | [d1; d2] => String (ascii_of_N (d1 * 4 + d2 / 16)) EmptyString
  | _ => EmptyString
  end.

(** [atob]: white space is skipped, padding is dropped from an input
    whose length is a multiple of four, a length of 4k+1 or a character
    outside the alphabet is an error. *)
Definition atob (s : string) : option string :=
  let l := List.filter (fun c => negb (is_ascii_space c)) (list_ascii_of_string s) in
  let l := if (length l mod 4 =? 0)%nat then drop_padding l else l in
  if (length l mod 4 =? 1)%nat then None
  else option_map bytes_of (read_digits l).

End Base64.

(** ** A browser to run the model on concrete inputs *)

Module Sample.

(** A stand-in for the digest: the theorems hold for every function. *)
Definition hashString (s : string) : string := String.append "#" s.

(** [new Date(d + 'T00:00:00').toISOString()] in the time zone UTC. *)
Definition isoDate (d : string) : string := String.append d "T00:00:00.000Z".

Definition exec : Call (number := Z) -> M (World Z) (Value (number := Z)) :=
  exec hashString Base64.btoa Base64.atob isoDate.

(** The state after a sequence of calls. *)
Definition run (cs : list (Call (number := Z))) (w : World Z) : World Z :=
  fold_left (fun w c => state_of (exec c w)) cs w.

Definition alice : UserData.t :=
  {| UserData.username := "Alice";
     UserData.recoveryQuestion := "First pet?";
     UserData.password := "secret";
     UserData.recoveryAnswer := "Rex" |}.

(** [btoa("Alice")] *)
Definition token : string := "QWxpY2U=".

Definition pencils : TxData.t Z :=
  {| TxData.productName := "Pencils"; TxData.quantity := 2%Z;
     TxData.price := 50%Z; TxData.date := "2024-03-01" |}.


(** Alice has registered and has added the customer Bob. *)
Definition shop : World Z :=
  run [Register alice; AddCustomer 1700000000000 token "Bob"] empty_world.

(** Bob has bought pencils. *)
Definition ledger : World Z :=
  run [AddTransaction 1700000000500 token "1700000000000" pencils] shop.


Definition alice_user : User.t :=
  {| User.username := "Alice";
     User.passwordHash := "#secret";
     User.recoveryQuestion := "First pet?";
     User.recoveryAnswerHash := "#rex" |}.

Definition pencils_tx : Transaction.t Z :=
  Transaction.Build "1700000000500" "Pencils" 2%Z 50%Z false "2024-03-01T00:00:00.000Z".

Definition bob : Customer.t Z :=
  {| Customer.id := "1700000000000"; Customer.name := "Bob";
     Customer.transactions := [pencils_tx] |}.

Definition ink_tx : Transaction.t Z :=
  Transaction.Build "1700000000900" "Ink" 1%Z 30%Z false "2024-03-02T00:00:00.000Z".

(** The profile dialog is open in Alice's session. *)
Definition editing : App.State :=
  {| App.authToken := Some token;
     App.currentUser := Some "Alice";
     App.isEditingProfile := true;
     App.sessionAuthToken := Some token |}.

End Sample.

(** ** Loading the database ([initDb] of [utils/api.ts]) *)

Section Loading.
Context {number : Type}.

(** [initDb]: the stored directory, when there is one, replaces
    [db.users]; every user of the directory then gets the stored customer
    list, or the empty list when none is stored. *)
Definition initDb (w : World number) : World number :=
  let storedUsers := debtBookUsers (localStorage w) in
  let users1 :=
    match storedUsers with
    | Some parsed => parsed
    | None => users (db w)
    end in
  let customers1 :=
    fold_left
      (fun m user =>
         let storedCustomers := debtBookData (localStorage w) !! User.username user in
         <[User.username user :=
             match storedCustomers with Some parsed => parsed | None => [] end]> m)
      users1 (customers (db w)) in
  {| db := {| users := users1; customers := customers1 |};
     localStorage := localStorage w |}.

(** The script is loaded: [db] is [{ users: [], customers: {} }] and
    [initDb()] runs. *)
Definition pageLoad (ls : LocalStorage number) : World number :=
  initDb {| db := {| users := []; customers := ∅ |}; localStorage := ls |}.

(** The keys of [db.customers] are the user names. *)
Definition keys_are_users (w : World number) : Prop :=
  forall k, is_Some (customers (db w) !! k) <->
            exists u, In u (users (db w)) /\ User.username u = k.

(** The browser storage holds the directory, or nobody has registered. *)
Definition directory_stored (w : World number) : Prop :=
  debtBookUsers (localStorage w) = Some (users (db w)) \/
  (debtBookUsers (localStorage w) = None /\ users (db w) = []).

End Loading.

(** ** Hashing ([utils/crypto.ts]) *)

Module Crypto.

(** [Number.prototype.toString(16)] on a non-negative integer. *)
Definition toString16 (n : N) : string :=
  HexadecimalString.NilZero.string_of_uint (N.to_hex_uint n).

(** [String.prototype.padStart] with a pad string of one character. *)
Definition padStart (targetLength : nat) (c : ascii) (s : string) : string :=
  String.append
    (string_of_list_ascii (repeat c (targetLength - String.length s))) s.

(** [bufferToHex]; the [Uint8Array] over the buffer is a list of bytes. *)
Definition bufferToHex (buffer : list Byte.byte) : string :=
  String.concat ""
    (map (fun b => padStart 2 "0" (toString16 (Byte.to_N b))) buffer).

Section Hash.

(** [new TextEncoder().encode] *)
Variable encode : string -> list Byte.byte.
(** [crypto.subtle.digest('SHA-256', data)] *)
Variable digest : list Byte.byte -> list Byte.byte.

Definition hashString (input : string) : string :=
  let data := encode input in
  let hashBuffer := digest data in
  bufferToHex hashBuffer.

End Hash.

(** Reading hexadecimal back, to compare what [bufferToHex] writes. *)
Definition hexValue (c : ascii) : option N :=
  let n := N_of_ascii c in
  if (48 <=? n)%N && (n <=? 57)%N then Some (n - 48)%N
  else if (97 <=? n)%N && (n <=? 102)%N then Some (n - 87)%N
  else None.

Fixpoint hexToBuffer (s : string) : option (list Byte.byte) :=
  match s with
  | EmptyString => Some []
  | String a (String b r) =>
      match hexValue a, hexValue b, hexToBuffer r with
      | Some h, Some l, Some bs =>
          match Byte.of_N (h * 16 + l) with
          | Some x => Some (x :: bs)
          | None => None
          end
      | _, _, _ => None
      end
  | String _ EmptyString => None
  end.

End Crypto.

(** ** The history of a customer ([CustomerDetail.tsx]) *)

Section History.
Context {number : Type}.

(** [date.split('T')[0]]: the text before the first ['T']. *)
Fixpoint firstPart (s : string) : string :=
  match s with
  | EmptyString => EmptyString
  | String c r => if Ascii.eqb c "T" then EmptyString else String c (firstPart r)
  end.

(** The names an object literal inherits from [Object.prototype]:
    [acc[dateKey]] finds a value under them in an empty object. *)
Definition objectPrototypeKeys : list string :=
  [ "constructor"; "__proto__"; "hasOwnProperty"; "isPrototypeOf";
    "propertyIsEnumerable"; "toLocaleString"; "toString"; "valueOf";
    "__defineGetter__"; "__defineSetter__"; "__lookupGetter__"; "__lookupSetter__" ].

(** The body of the [reduce] of [groupedTransactions]. Under an inherited
    name [acc[dateKey]] is a function or the prototype, so that no group is
    made, and [push] is not a function of it: the call throws. *)
Definition groupTransaction
    (acc : Error + gmap string (list (Transaction.t number)))
    (tx : Transaction.t number) : Error + gmap string (list (Transaction.t number)) :=
  match acc with
  | inl e => inl e
  | inr acc =>
      let dateKey := firstPart (Transaction.date tx) in
      if existsb (String.eqb dateKey) objectPrototypeKeys then inl TypeError
      else
        let acc :=
          match acc !! dateKey with
          | None => <[dateKey := []]> acc
          | Some _ => acc
          end in
        inr (alter (fun group => group ++ [tx]) dateKey acc)
  end.

(** [groupedTransactions]: the transactions by the day of their date. *)
Definition groupedTransactions (transactions : list (Transaction.t number))
  : Error + gmap string (list (Transaction.t number)) :=
  fold_left groupTransaction transactions (inr ∅).

End History.

(** ** The overview ([Dashboard.tsx]) *)

Section Dashboard.
Context {number : Type}.
Variable zero : number.
Variables add mul : number -> number -> number.


End Dashboard.

(** ** The customer handlers of [App.tsx] *)

Module Ui.
Section Handlers.
Context {number : Type}.
Variable atob : string -> option string.
Variable isoDate : string -> string.

(** The component state the handlers read and write, and the messages
    shown by [alert]. *)
Record View : Type :=
  { authToken : option string;
    customers : list (Customer.t number);
    selectedCustomerId : option string;
    customerToRename : option (Customer.t number);
    customerToDelete : option (Customer.t number);
    isSaving : bool;
    alerts : list string }.

Definition setCustomers (cs : list (Customer.t number)) (v : View) : View :=
  {| authToken := authToken v; customers := cs;
     selectedCustomerId := selectedCustomerId v;
     customerToRename := customerToRename v; customerToDelete := customerToDelete v;
     isSaving := isSaving v; alerts := alerts v |}.

Definition setSelectedCustomerId (id : option string) (v : View) : View :=
  {| authToken := authToken v; customers := customers v;
     selectedCustomerId := id;
     customerToRename := customerToRename v; customerToDelete := customerToDelete v;
     isSaving := isSaving v; alerts := alerts v |}.

Definition setCustomerToRename (c : option (Customer.t number)) (v : View) : View :=
  {| authToken := authToken v; customers := customers v;
     selectedCustomerId := selectedCustomerId v;
     customerToRename := c; customerToDelete := customerToDelete v;
     isSaving := isSaving v; alerts := alerts v |}.

Definition setCustomerToDelete (c : option (Customer.t number)) (v : View) : View :=
  {| authToken := authToken v; customers := customers v;
     selectedCustomerId := selectedCustomerId v;
     customerToRename := customerToRename v; customerToDelete := c;
     isSaving := isSaving v; alerts := alerts v |}.

Definition setIsSaving (b : bool) (v : View) : View :=
  {| authToken := authToken v; customers := customers v;
     selectedCustomerId := selectedCustomerId v;
     customerToRename := customerToRename v; customerToDelete := customerToDelete v;
     isSaving := b; alerts := alerts v |}.

Definition alert (message : string) (v : View) : View :=
  {| authToken := authToken v; customers := customers v;
     selectedCustomerId := selectedCustomerId v;
     customerToRename := customerToRename v; customerToDelete := customerToDelete v;
     isSaving := isSaving v; alerts := alerts v ++ [message] |}.

(** [if (!authToken) return;] followed by the rest of a handler. *)
Definition withToken (v : View) (w : World number)
    (rest : string -> View * World number) : View * World number :=
  match authToken v with
  | None => (v, w)
  | Some token => if Str.falsy token then (v, w) else rest token
  end.

Definition handleAddCustomer (now : N) (name : string) (v : View) (w : World number)
  : View * World number :=
  withToken v w (fun token =>
    match addCustomer atob now token name w with
    | Return newCustomer w' =>
        (setSelectedCustomerId (Some (Customer.id newCustomer))
           (setCustomers (customers v ++ [newCustomer]) v), w')
    | Throw _ w' => (alert "Error: Could not add customer." v, w')
    end).

Definition handleRenameCustomer (customerId newName : string) (v : View)
    (w : World number) : View * World number :=
  withToken v w (fun token =>
    let v := setIsSaving true v in
    let (v, w) :=
      match renameCustomer atob token customerId newName w with
      | Return _ w' =>
          (setCustomers
             (map (fun c => if String.eqb (Customer.id c) customerId
                            then setName newName c else c) (customers v)) v, w')
      | Throw _ w' => (alert "Error: Could not rename customer." v, w')
      end in
    (setIsSaving false (setCustomerToRename None v), w)).

Definition handleDeleteCustomer (customerId : string) (v : View) (w : World number)
  : View * World number :=
  withToken v w (fun token =>
    let v := setIsSaving true v in
    let (v, w) :=
      match deleteCustomer atob token customerId w with
      | Return _ w' =>
          (setSelectedCustomerId None
             (setCustomers
                (List.filter (fun c => negb (String.eqb (Customer.id c) customerId))
                   (customers v)) v), w')
      | Throw _ w' => (alert "Error: Could not delete customer." v, w')
      end in
    (setIsSaving false (setCustomerToDelete None v), w)).

(** [const updatedCustomers = await api.getCustomers(authToken);
    setCustomers(updatedCustomers);] inside the [try] of a handler. *)
Definition refetch (token message : string) (v : View) (w : World number)
  : View * World number :=
  match getCustomers atob token w with
  | Return updatedCustomers w' => (setCustomers updatedCustomers v, w')
  | Throw _ w' => (alert message v, w')
  end.

Definition handleAddTransaction (now : N) (customerId productName : string)
    (quantity price : number) (date : string) (v : View) (w : World number)
  : View * World number :=
  withToken v w (fun token =>
    match addTransaction atob isoDate now token customerId
            {| TxData.productName := productName; TxData.quantity := quantity;
               TxData.price := price; TxData.date := date |} w with
    | Return _ w' => refetch token "Error: Could not add transaction." v w'
    | Throw _ w' => (alert "Error: Could not add transaction." v, w')
    end).

Definition handleToggleTransactionPaid (customerId transactionId : string)
    (v : View) (w : World number) : View * World number :=
  withToken v w (fun token =>
    match toggleTransactionPaid atob token customerId transactionId w with
    | Return _ w' => refetch token "Error: Could not update transaction." v w'
    | Throw _ w' => (alert "Error: Could not update transaction." v, w')
    end).

Definition handleDeleteTransaction (customerId transactionId : string)
    (v : View) (w : World number) : View * World number :=
  withToken v w (fun token =>
    match deleteTransaction atob token customerId transactionId w with
    | Return _ w' => refetch token "Error: Could not delete transaction." v w'
    | Throw _ w' => (alert "Error: Could not delete transaction." v, w')
    end).

(** What the user does on the customer screens. *)
Inductive Event : Type :=
| OnAddCustomer (now : N) (name : string)
| OnRenameCustomer (customerId newName : string)
| OnDeleteCustomer (customerId : string)
| OnAddTransaction (now : N) (customerId productName : string)
    (quantity price : number) (date : string)
| OnToggleTransactionPaid (customerId transactionId : string)
| OnDeleteTransaction (customerId transactionId : string).

Definition handle (e : Event) (v : View) (w : World number) : View * World number :=
  match e with
  | OnAddCustomer now name => handleAddCustomer now name v w
  | OnRenameCustomer c n => handleRenameCustomer c n v w
  | OnDeleteCustomer c => handleDeleteCustomer c v w
  | OnAddTransaction now c p q a d => handleAddTransaction now c p q a d v w
  | OnToggleTransactionPaid c t => handleToggleTransactionPaid c t v w
  | OnDeleteTransaction c t => handleDeleteTransaction c t v w
  end.

(** The list on the screen is the list the API returns for the session. *)
Definition in_sync (v : View) (w : World number) : Prop :=
  exists token,
    authToken v = Some token /\ getCustomers atob token w = Return (customers v) w.

End Handlers.
End Ui.

(** ** The forms of [Auth.tsx] *)

Module AuthForms.
Section Forms.
Context {number : Type}.
Variable hashString : string -> string.
Variable btoa : string -> string.






End Forms.
End AuthForms.

(** The customer operations, which take the session token first. *)
Definition tokenOf {number : Type} (c : Call (number := number)) : option string :=
  match c with
  | GetCustomers token
  | AddCustomer _ token _
  | RenameCustomer token _ _
  | DeleteCustomer token _
  | AddTransaction _ token _ _
  | ToggleTransactionPaid token _ _
  | DeleteTransaction token _ _ => Some token
  | _ => None
  end.


(** ** More of the browser of [Sample] *)

Module Visit.



(** [btoa("Bob")]: the token of a name that is not registered. *)
Definition stranger : string := "Qm9i".

(** The customer screen in Alice's session, showing her list. *)
Definition screen : Ui.View (number := Z) :=
  {| Ui.authToken := Some Sample.token;
     Ui.customers := [Sample.bob];
     Ui.selectedCustomerId := None;
     Ui.customerToRename := Some Sample.bob;
     Ui.customerToDelete := None;
     Ui.isSaving := false;
     Ui.alerts := [] |}.

(** A stand-in for [TextEncoder] and for SHA-256, to run [hashString]: the
    code units of the string, and the bytes as they are. *)
Definition encode (s : string) : list Byte.byte := list_byte_of_string s.
Definition digest (data : list Byte.byte) : list Byte.byte := data.

Definition hashString : string -> string := Crypto.hashString encode digest.



End Visit.

(** ** How a computation treats the state *)

Section Effects.
Context {S A : Type}.

(** The computation leaves the state as it found it. *)
Definition readonly (m : M S A) : Prop := forall s, state_of (m s) = s.

(** The computation returns. *)
Definition nothrow (m : M S A) : Prop := forall s, exists a s', m s = Return a s'.

(** When the computation throws, the state is the one it started from. *)
Definition atomic (m : M S A) : Prop := forall s e s', m s = Throw e s' -> s' = s.

End Effects.

(** * Properties *)

(** ** Strings *)

Lemma case_variant_same a b : Str.case_variant a b <-> Str.same_ignoring_case a b.
Proof.
  unfold Str.same_ignoring_case. split.
  - induction 1 as [|x y s t Hxy _ IH]; simpl; [reflexivity | now rewrite Hxy, IH].
  - revert b. induction a as [|x s IH]; intros [|y t]; simpl; intros H; try discriminate.
    + constructor.
    + injection H as Hxy Hst. constructor; auto.
Qed.

Lemma same_ignoring_case_sym a b :
  Str.same_ignoring_case a b -> Str.same_ignoring_case b a.
Proof. unfold Str.same_ignoring_case. congruence. Qed.

Lemma same_ignoring_case_refl a : Str.same_ignoring_case a a.
Proof. reflexivity. Qed.

Lemma falsy_false s : s <> "" -> Str.falsy s = false.
Proof. now destruct s. Qed.

Lemma falsy_true s : Str.falsy s = true -> s = "".
Proof. now destruct s. Qed.

(** ** Arrays *)

Lemma findIndex_Some {A} (p : A -> bool) l i :
  findIndex p l = Some i ->
  exists x, l !! i = Some x /\ p x = true /\
            forall j y, (j < i)%nat -> l !! j = Some y -> p y = false.
Proof.
  revert i. induction l as [|a l IH]; simpl; intros i H; [discriminate|].
  destruct (p a) eqn:Ha.
  - injection H as <-. exists a. repeat split; auto. intros j y Hj. lia.
  - destruct (findIndex p l) as [k|]; simpl in H; [|discriminate].
    injection H as <-. destruct (IH k eq_refl) as (x & Hx & Hpx & Hlt).
    exists x. repeat split; auto.
    intros [|j] y Hj Hy; simpl in Hy.
    + now injection Hy as <-.
    + apply (Hlt j); [lia | assumption].
Qed.

Lemma findIndex_None {A} (p : A -> bool) l :
  findIndex p l = None <-> forall x, In x l -> p x = false.
Proof.
  induction l as [|a l IH]; simpl.
  - split; [intros _ x [] | reflexivity].
  - destruct (p a) eqn:Ha.
    + split; [discriminate|]. intros H. rewrite (H a) in Ha by auto. discriminate.
    + destruct (findIndex p l) as [k|]; simpl.
      * split; [discriminate|]. intros H.
        assert (Some k = None) as E; [|discriminate].
        apply IH. intros x Hx. apply H. auto.
      * split; [|reflexivity]. intros _ x [<-|Hx]; [assumption|].
        now apply IH.
Qed.

Lemma findIndex_In {A} (p : A -> bool) l x :
  In x l -> p x = true -> exists i, findIndex p l = Some i.
Proof.
  intros Hx Hp. destruct (findIndex p l) as [i|] eqn:E; [eauto|].
  rewrite (proj1 (findIndex_None p l) E x Hx) in Hp. discriminate.
Qed.


(** ** Effects of the building blocks *)

Section EffectRules.
Context {S : Type}.

Lemma readonly_atomic {A} (m : M S A) : readonly m -> atomic m.
Proof. intros H s e s' E. specialize (H s). rewrite E in H. exact H. Qed.

Lemma nothrow_atomic {A} (m : M S A) : nothrow m -> atomic m.
Proof. intros H s e s' E. destruct (H s) as (a & s1 & E1). congruence. Qed.

Lemma readonly_ret {A} (a : A) : readonly (ret (S := S) a).
Proof. intros s. reflexivity. Qed.

Lemma readonly_throw {A} e : readonly (throw (S := S) (A := A) e).
Proof. intros s. reflexivity. Qed.

Lemma nothrow_ret {A} (a : A) : nothrow (ret (S := S) a).
Proof. intros s. unfold ret. eauto. Qed.

Lemma readonly_bind {A B} (m : M S A) (k : A -> M S B) :
  readonly m -> (forall a, readonly (k a)) -> readonly (bind m k).
Proof.
  intros Hm Hk s. unfold bind. specialize (Hm s).
  destruct (m s) as [a s1|e s1]; simpl in *; subst; [apply Hk | reflexivity].
Qed.

Lemma nothrow_bind {A B} (m : M S A) (k : A -> M S B) :
  nothrow m -> (forall a, nothrow (k a)) -> nothrow (bind m k).
Proof.
  intros Hm Hk s. unfold bind. destruct (Hm s) as (a & s1 & ->). apply Hk.
Qed.

Lemma atomic_bind_readonly {A B} (m : M S A) (k : A -> M S B) :
  readonly m -> (forall a, atomic (k a)) -> atomic (bind m k).
Proof.
  intros Hm Hk s e s'. unfold bind. specialize (Hm s).
  destruct (m s) as [a s1|e1 s1]; simpl in *; subst.
  - apply Hk.
  - congruence.
Qed.

Lemma atomic_bind_nothrow {A B} (m : M S A) (k : A -> M S B) :
  atomic m -> (forall a, nothrow (k a)) -> atomic (bind m k).
Proof.
  intros Hm Hk s e s'. unfold bind.
  destruct (m s) as [a s1|e1 s1] eqn:E.
  - destruct (Hk a s1) as (b & s2 & ->). discriminate.
  - intros [= <- <-]. eapply Hm, E.
Qed.

End EffectRules.

Create HintDb effects.

(** Decomposes a goal about the effect of an operation along its text. *)
Ltac effect_step :=
  match goal with
  | |- readonly (bind _ _) => apply readonly_bind; [|intros ?]
  | |- nothrow (bind _ _) => apply nothrow_bind; [|intros ?]
  | |- readonly (ret _) => apply readonly_ret
  | |- readonly (throw _) => apply readonly_throw
  | |- nothrow (ret _) => apply nothrow_ret
  | |- atomic (ret _) => apply readonly_atomic, readonly_ret
  | |- atomic (throw _) => apply readonly_atomic, readonly_throw
  | |- ?P (match ?x with _ => _ end) => destruct x
  | |- ?P (let (_, _) := ?x in _) => destruct x
  end.

Section ApiEffects.
Context {number : Type}.
Variable hashString : string -> string.
Variable btoa : string -> string.
Variable atob : string -> option string.
Variable isoDate : string -> string.

Abbreviation W := (World number).

Lemma readonly_getDb : readonly (getDb (number := number)).
Proof. intros w. reflexivity. Qed.

Lemma nothrow_setUsers us : nothrow (setUsers (number := number) us).
Proof. intros w. unfold setUsers. eauto. Qed.

Lemma nothrow_setCustomers m : nothrow (setCustomers (number := number) m).
Proof. intros w. unfold setCustomers. eauto. Qed.

Lemma nothrow_persistUsers : nothrow (persistUsers (number := number)).
Proof. intros w. unfold persistUsers. eauto. Qed.

Lemma nothrow_persistCustomers u : nothrow (persistCustomers (number := number) u).
Proof. intros w. unfold persistCustomers. destruct (_ !! _); eauto. Qed.

Lemma nothrow_removeCustomerData u : nothrow (removeCustomerData (number := number) u).
Proof. intros w. unfold removeCustomerData. eauto. Qed.

Hint Resolve readonly_getDb nothrow_setUsers nothrow_setCustomers nothrow_persistUsers
  nothrow_persistCustomers nothrow_removeCustomerData : effects.

Ltac effects := repeat first [solve [auto with effects] | effect_step].

Lemma readonly_customersOf u : readonly (customersOf (number := number) u).
Proof. unfold customersOf. effects. Qed.

Lemma readonly_getUsernameFromToken t :
  readonly (getUsernameFromToken (number := number) atob t).
Proof. unfold getUsernameFromToken. effects. Qed.

Hint Resolve readonly_customersOf readonly_getUsernameFromToken : effects.

Lemma readonly_authenticate e t : readonly (authenticate (number := number) atob e t).
Proof. unfold authenticate. effects. Qed.

Lemma readonly_findCustomer u c : readonly (findCustomer (number := number) u c).
Proof. unfold findCustomer. effects. Qed.

Hint Resolve readonly_authenticate readonly_findCustomer : effects.

Lemma atomic_storeCustomer u i c : atomic (storeCustomer (number := number) u i c).
Proof.
  unfold storeCustomer. apply atomic_bind_readonly; [effects|]. intros cs.
  apply atomic_bind_readonly; [effects|]. intros d.
  apply nothrow_atomic. effects.
Qed.

(** Reads, with the checks that throw, come first; the writes that
    follow them return. *)
Ltac atomicity :=
  repeat first
    [ solve [auto with effects]
    | apply atomic_bind_readonly; [solve [effects] | intros ?]
    | apply atomic_bind_nothrow; [solve [auto using atomic_storeCustomer] | intros ?; solve [effects]]
    | apply nothrow_atomic; solve [effects]
    | effect_step ].

Lemma atomic_exec (c : Call (number := number)) :
  atomic (exec hashString btoa atob isoDate c).
Proof.
  destruct c; unfold exec, fmap_M; (apply atomic_bind_nothrow; [|intros ?; effects]).
  - unfold login. atomicity.
  - unfold register. atomicity.
  - unfold findUserForRecovery. atomicity.
  - unfold verifyRecoveryAnswer. atomicity.
  - unfold resetPassword. atomicity.
  - unfold updateUsername. atomicity.
  - unfold getCustomers. atomicity.
  - unfold addCustomer. atomicity.
  - unfold renameCustomer. atomicity.
  - unfold deleteCustomer. atomicity.
  - unfold addTransaction. atomicity.
  - unfold toggleTransactionPaid. atomicity.
  - unfold deleteTransaction. atomicity.
Qed.

End ApiEffects.

(** ** Running the operations *)

Section ApiRuns.
Context {number : Type}.
Variable hashString : string -> string.
Variable btoa : string -> string.
Variable atob : string -> option string.
Variable isoDate : string -> string.

Abbreviation W := (World number).
Implicit Types (w : W) (cs : list (Customer.t number)).

Lemma bind_Return {A B} (m : M W A) (k : A -> M W B) w a w1 :
  m w = Return a w1 -> bind m k w = k a w1.
Proof. unfold bind. now intros ->. Qed.

Lemma bind_Throw {A B} (m : M W A) (k : A -> M W B) w e w1 :
  m w = Throw e w1 -> bind m k w = Throw e w1.
Proof. unfold bind. now intros ->. Qed.

Lemma existsb_username w username :
  existsb (fun u => String.eqb (User.username u) username) (users (db w)) = true <->
  exists u, In u (users (db w)) /\ User.username u = username.
Proof.
  rewrite existsb_exists. split; intros (u & Hu & E); exists u; split; auto.
  - now apply String.eqb_eq.
  - now apply String.eqb_eq.
Qed.

Lemma authenticate_logged_in e w token username :
  logged_in atob w token username ->
  authenticate atob e token w = Return username w.
Proof.
  intros (Hat & Hne & Hu). unfold authenticate, getUsernameFromToken, bind, getDb.
  rewrite Hat. simpl. rewrite (proj2 (existsb_username w username) Hu).
  rewrite (falsy_false _ Hne). reflexivity.
Qed.

Lemma authenticate_Return e w token username w' :
  authenticate atob e token w = Return username w' ->
  w' = w /\ logged_in atob w token username.
Proof.
  unfold authenticate, getUsernameFromToken, bind, getDb, logged_in.
  destruct (atob token) as [u|]; simpl; [|discriminate].
  destruct (existsb _ _) eqn:Hex; [|discriminate].
  destruct (Str.falsy u) eqn:Hf; [discriminate|].
  intros [= <- <-]. repeat split; auto.
  - intros ->. discriminate.
  - now apply existsb_username.
Qed.

Lemma authenticate_Throw e w token e' w' :
  authenticate atob e token w = Throw e' w' -> e' = e /\ w' = w.
Proof.
  unfold authenticate, getUsernameFromToken, bind, getDb.
  destruct (atob token) as [u|]; simpl.
  - destruct (existsb _ _); [destruct (Str.falsy u)|]; unfold throw, ret;
      intros [= <- <-] || discriminate; auto.
  - unfold throw. intros [= <- <-]; auto.
Qed.


Lemma customersOf_Some w username cs :
  customers (db w) !! username = Some cs -> customersOf username w = Return cs w.
Proof. intros H. unfold customersOf, bind, getDb. now rewrite H. Qed.

Lemma findCustomer_Some w username customerId cs i c :
  customers (db w) !! username = Some cs ->
  findIndex (hasId customerId) cs = Some i -> cs !! i = Some c ->
  findCustomer username customerId w = Return (i, c) w.
Proof.
  intros Hcs Hi Hc. unfold findCustomer.
  rewrite (bind_Return _ _ _ _ _ (customersOf_Some _ _ _ Hcs)).
  now rewrite Hi, Hc.
Qed.

Lemma findCustomer_None w username customerId cs :
  customers (db w) !! username = Some cs ->
  findIndex (hasId customerId) cs = None ->
  findCustomer username customerId w = Throw CustomerNotFound w.
Proof.
  intros Hcs Hi. unfold findCustomer.
  rewrite (bind_Return _ _ _ _ _ (customersOf_Some _ _ _ Hcs)).
  now rewrite Hi.
Qed.

(** A customer identifier of the list is found, at its first occurrence. *)
Lemma findIndex_hasId cs customerId :
  In customerId (map Customer.id cs) ->
  exists i c, findIndex (hasId (number := number) customerId) cs = Some i /\
              cs !! i = Some c /\ Customer.id c = customerId.
Proof.
  intros H. apply in_map_iff in H as (c0 & E & Hc0).
  destruct (findIndex_In (hasId customerId) cs c0 Hc0) as (i & Hi).
  { unfold hasId. now apply String.eqb_eq. }
  destruct (findIndex_Some _ _ _ Hi) as (c & Hc & Hp & _).
  exists i, c. repeat split; auto. now apply String.eqb_eq.
Qed.

Lemma storeCustomer_run w username cs i c :
  customers (db w) !! username = Some cs ->
  storeCustomer username i c w =
    Return tt {| db := {| users := users (db w);
                          customers := <[username := <[i := c]> cs]> (customers (db w)) |};
                 localStorage := localStorage w |}.
Proof.
  intros Hcs. unfold storeCustomer.
  rewrite (bind_Return _ _ _ _ _ (customersOf_Some _ _ _ Hcs)). reflexivity.
Qed.

Lemma store_persist {A} w username cs i c (k : M W A) :
  customers (db w) !! username = Some cs ->
  (let! _ := storeCustomer username i c in
   let! _ := persistCustomers username in k) w
  = k (stored w username (<[i := c]> cs)).
Proof.
  intros Hcs. rewrite (bind_Return _ _ _ _ _ (storeCustomer_run _ _ _ i c Hcs)).
  unfold bind at 1. unfold persistCustomers. simpl.
  now rewrite lookup_insert_eq.
Qed.

Lemma stored_customers w username cs' :
  customers (db (stored w username cs')) !! username = Some cs'.
Proof. simpl. apply lookup_insert_eq. Qed.


Lemma getCustomers_run w token username :
  logged_in atob w token username ->
  getCustomers atob token w = Return (default [] (customers (db w) !! username)) w.
Proof.
  intros Hin. unfold getCustomers.
  rewrite (bind_Return _ _ _ _ _ (authenticate_logged_in _ _ _ _ Hin)). reflexivity.
Qed.

End ApiRuns.

(** ** Customers and transactions *)

Section CustomerProperties.
Context {number : Type}.
Variable atob : string -> option string.
Variable isoDate : string -> string.

Abbreviation W := (World number).
Implicit Types (w : W) (cs : list (Customer.t number)).


(** *** Toggling *)

Abbreviation toggled transactionId :=
  (fun t : Transaction.t number =>
     if txHasId transactionId t then togglePaid t else t).

Lemma togglePaid_involutive (t : Transaction.t number) : togglePaid (togglePaid t) = t.
Proof. destruct t. unfold togglePaid. simpl. now rewrite negb_involutive. Qed.

Lemma toggled_involutive transactionId (t : Transaction.t number) :
  toggled transactionId (toggled transactionId t) = t.
Proof.
  cbv beta. destruct (txHasId transactionId t) eqn:E.
  - change (txHasId transactionId (togglePaid t)) with (txHasId transactionId t).
    rewrite E. apply togglePaid_involutive.
  - now rewrite E.
Qed.

Lemma toggled_id transactionId (t : Transaction.t number) :
  Transaction.id (toggled transactionId t) = Transaction.id t.
Proof. cbv beta. now destruct (txHasId transactionId t). Qed.

Lemma lastToggled_snoc transactionId (ts : list (Transaction.t number)) x :
  lastToggled transactionId (ts ++ [x]) =
    if txHasId transactionId x then Some (togglePaid x) else lastToggled transactionId ts.
Proof. unfold lastToggled. now rewrite fold_left_app. Qed.

(** The value of [updatedTransaction]: the last transaction with the
    identifier, toggled. *)
Lemma lastToggled_Some transactionId (ts : list (Transaction.t number)) :
  In transactionId (map Transaction.id ts) ->
  exists k t,
    ts !! k = Some t /\ Transaction.id t = transactionId /\
    lastToggled transactionId ts = Some (togglePaid t) /\
    forall j t', (k < j)%nat -> ts !! j = Some t' -> Transaction.id t' <> transactionId.
Proof.
  induction ts as [|x ts IH] using rev_ind; [intros []|].
  rewrite map_app, in_app_iff, lastToggled_snoc. simpl. intros H.
  destruct (txHasId transactionId x) eqn:E.
  - exists (length ts), x. repeat split.
    + rewrite lookup_app_r by lia. now rewrite Nat.sub_diag.
    + now apply String.eqb_eq.
    + intros j t' Hj Hl. apply lookup_lt_Some in Hl.
      rewrite length_app in Hl. simpl in Hl. lia.
  - destruct H as [H|[H|[]]].
    + destruct (IH H) as (k & t & Hk & Hid & Hlast & Hafter).
      exists k, t. repeat split; auto.
      * rewrite lookup_app_l; [assumption | now apply lookup_lt_Some in Hk].
      * intros j t' Hj Hl.
        destruct (decide (j < length ts)%nat) as [Hlt|Hge].
        -- rewrite lookup_app_l in Hl by assumption. eauto.
        -- rewrite lookup_app_r in Hl by lia.
           destruct (j - length ts)%nat; simpl in Hl; [|discriminate].
           injection Hl as <-. intros Hx.
           apply String.eqb_eq in Hx. unfold txHasId in E. congruence.
    + apply String.eqb_eq in H. unfold txHasId in E. congruence.
Qed.

Lemma lastToggled_None transactionId (ts : list (Transaction.t number)) :
  ~ In transactionId (map Transaction.id ts) -> lastToggled transactionId ts = None.
Proof.
  induction ts as [|x ts IH] using rev_ind; [reflexivity|].
  rewrite map_app, in_app_iff, lastToggled_snoc. simpl. intros H.
  destruct (txHasId transactionId x) eqn:E.
  - apply String.eqb_eq in E. tauto.
  - apply IH. tauto.
Qed.

Lemma findIndex_insert cs i (c c' : Customer.t number) customerId :
  cs !! i = Some c -> Customer.id c' = Customer.id c ->
  findIndex (hasId customerId) (<[i := c']> cs) = findIndex (hasId customerId) cs.
Proof.
  revert i. induction cs as [|a cs IH]; intros [|i]; simpl; try discriminate.
  - intros [= ->] E. unfold hasId. now rewrite E.
  - intros Hc E. now rewrite (IH i Hc E).
Qed.

Lemma setTransactions_id (c : Customer.t number) :
  setTransactions (Customer.transactions c) c = c.
Proof. now destruct c. Qed.

Lemma stored_stored w username cs1 cs2 :
  stored (stored w username cs1) username cs2 = stored w username cs2.
Proof. unfold stored. simpl. now rewrite !insert_insert_eq. Qed.

Lemma stored_db_same w username cs :
  customers (db w) !! username = Some cs -> db (stored w username cs) = db w.
Proof.
  intros H. destruct w as [[us m] ls]. unfold stored. simpl in *.
  now rewrite (insert_id _ _ _ H).
Qed.

Lemma stored_same w username cs :
  customers (db w) !! username = Some cs -> mirrored w username ->
  stored w username cs = w.
Proof.
  unfold mirrored. intros H Hm. rewrite H in Hm.
  destruct w as [[us m] [lu ld]]. unfold stored. simpl in *.
  now rewrite (insert_id _ _ _ H), (insert_id _ _ _ Hm).
Qed.

Lemma toggle_run w token username customerId transactionId cs i customer :
  logged_in atob w token username ->
  customers (db w) !! username = Some cs ->
  findIndex (hasId customerId) cs = Some i -> cs !! i = Some customer ->
  toggleTransactionPaid atob token customerId transactionId w =
    match lastToggled transactionId (Customer.transactions customer) with
    | Some r =>
        Return r
          (stored w username
             (<[i := setTransactions
                       (map (toggled transactionId) (Customer.transactions customer))
                       customer]> cs))
    | None => Throw TransactionNotFound w
    end.
Proof.
  intros Hin Hcs Hi Hc. unfold toggleTransactionPaid.
  rewrite (bind_Return _ _ _ _ _ (authenticate_logged_in atob _ _ _ _ Hin)).
  rewrite (bind_Return _ _ _ _ _ (findCustomer_Some _ _ _ _ _ _ Hcs Hi Hc)).
  destruct (lastToggled _ _); [|reflexivity].
  now rewrite (store_persist _ _ _ _ _ _ Hcs).
Qed.

(** C4. For a logged-in user, a customer of the user's list and an
    identifier of one of that customer's transactions,
    [toggleTransactionPaid] returns a transaction of that identifier with
    [isPaid] negated and every other field kept; it stands where the
    original stood, the sequence keeps its length, and the transactions
    with another identifier are untouched. A second call brings the
    database back to what it was before the first, and the browser
    storage too when it held the user's list. *)
Theorem C4_toggleTransactionPaid_involution :
  forall w token username customerId transactionId cs i customer,
    logged_in atob w token username ->
    customers (db w) !! username = Some cs ->
    findIndex (hasId customerId) cs = Some i ->
    cs !! i = Some customer ->
    In transactionId (map Transaction.id (Customer.transactions customer)) ->
    exists r w1 customer1,
      toggleTransactionPaid atob token customerId transactionId w = Return r w1 /\
      getCustomers atob token w1 = Return (<[i := customer1]> cs) w1 /\
      Customer.id customer1 = Customer.id customer /\
      Customer.name customer1 = Customer.name customer /\
      length (Customer.transactions customer1) = length (Customer.transactions customer) /\
      (exists k t,
          Customer.transactions customer !! k = Some t /\
          Customer.transactions customer1 !! k = Some r /\
          Transaction.id t = transactionId /\
          Transaction.isPaid r = negb (Transaction.isPaid t) /\
          Transaction.id r = Transaction.id t /\
          Transaction.productName r = Transaction.productName t /\
          Transaction.quantity r = Transaction.quantity t /\
          Transaction.amount r = Transaction.amount t /\
          Transaction.date r = Transaction.date t) /\
      (forall k t,
          Customer.transactions customer !! k = Some t ->
          Transaction.id t <> transactionId ->
          Customer.transactions customer1 !! k = Some t) /\
      exists r2 w2,
        toggleTransactionPaid atob token customerId transactionId w1 = Return r2 w2 /\
        db w2 = db w /\
        (mirrored w username -> w2 = w).
Proof.
  intros w token username customerId transactionId cs i customer Hin Hcs Hi Hc Htx.
  destruct (lastToggled_Some _ _ Htx) as (k & t & Hk & Hid & Hlast & _).
  set (ts1 := map (toggled transactionId) (Customer.transactions customer)).
  set (customer1 := setTransactions ts1 customer).
  set (w1 := stored w username (<[i := customer1]> cs)).
  assert (Hi' : (i < length cs)%nat) by now apply lookup_lt_Some in Hc.
  exists (togglePaid t), w1, customer1. split; [|split; [|split; [|split; [|split; [|split; [|split]]]]]].
  - rewrite (toggle_run _ _ _ _ _ _ _ _ Hin Hcs Hi Hc). now rewrite Hlast.
  - rewrite (getCustomers_run atob _ token username) by exact Hin.
    unfold w1. now rewrite stored_customers.
  - reflexivity.
  - reflexivity.
  - unfold customer1, ts1. simpl. apply length_map.
  - exists k, t. repeat split; auto.
    unfold customer1, ts1. simpl. rewrite list_lookup_fmap, Hk. simpl.
    unfold txHasId. now rewrite (proj2 (String.eqb_eq _ _) Hid).
  - intros j t' Hj Hne. unfold customer1, ts1. simpl.
    rewrite list_lookup_fmap, Hj. simpl. unfold txHasId.
    now rewrite (proj2 (String.eqb_neq _ _) Hne).
  - assert (Hcs1 : customers (db w1) !! username = Some (<[i := customer1]> cs))
      by apply stored_customers.
    assert (Hi1 : findIndex (hasId customerId) (<[i := customer1]> cs) = Some i).
    { rewrite (findIndex_insert _ _ _ _ _ Hc); [exact Hi | reflexivity]. }
    assert (Hc1 : <[i := customer1]> cs !! i = Some customer1)
      by now apply list_lookup_insert_eq.
    assert (Htx1 : In transactionId (map Transaction.id (Customer.transactions customer1))).
    { unfold customer1, ts1. simpl. rewrite map_map.
      erewrite map_ext; [exact Htx|]. intros a. apply toggled_id. }
    destruct (lastToggled_Some _ _ Htx1) as (k1 & t1 & _ & _ & Hlast1 & _).
    assert (Hback :
      <[i := setTransactions
               (map (toggled transactionId) (Customer.transactions customer1))
               customer1]> (<[i := customer1]> cs) = cs).
    { rewrite list_insert_insert_eq. apply list_insert_id. rewrite Hc. f_equal.
      unfold customer1, ts1, setTransactions. simpl. rewrite map_map.
      erewrite map_ext; [|intros a; apply toggled_involutive].
      rewrite map_id. now destruct customer. }
    eexists. eexists. split; [|split].
    + rewrite (toggle_run w1 _ _ _ _ _ _ _ Hin Hcs1 Hi1 Hc1). rewrite Hlast1.
      rewrite Hback. unfold w1. rewrite stored_stored. reflexivity.
    + now apply stored_db_same.
    + intros Hm. now apply stored_same.
Qed.

(** *** Deleting *)

Lemma filter_all {A} (p : A -> bool) (l : list A) :
  (forall x, In x l -> p x = true) -> List.filter p l = l.
Proof.
  induction l as [|a l IH]; simpl; intros H; [reflexivity|].
  rewrite (H a) by auto. f_equal. apply IH. auto.
Qed.

Lemma deleteCustomer_run w token username customerId cs :
  logged_in atob w token username ->
  customers (db w) !! username = Some cs ->
  deleteCustomer atob token customerId w =
    Return tt (stored w username (List.filter (fun c => negb (hasId customerId c)) cs)).
Proof.
  intros Hin Hcs. unfold deleteCustomer.
  rewrite (bind_Return _ _ _ _ _ (authenticate_logged_in atob _ _ _ _ Hin)).
  rewrite (bind_Return _ _ _ _ _ (customersOf_Some _ _ _ Hcs)).
  unfold bind, getDb, setCustomers, persistCustomers. simpl.
  now rewrite lookup_insert_eq.
Qed.

Lemma deleteTransaction_missing w token username customerId transactionId cs i customer :
  logged_in atob w token username ->
  customers (db w) !! username = Some cs ->
  findIndex (hasId customerId) cs = Some i -> cs !! i = Some customer ->
  ~ In transactionId (map Transaction.id (Customer.transactions customer)) ->
  deleteTransaction atob token customerId transactionId w = Throw TransactionNotFound w.
Proof.
  intros Hin Hcs Hi Hc Hno. unfold deleteTransaction.
  rewrite (bind_Return _ _ _ _ _ (authenticate_logged_in atob _ _ _ _ Hin)).
  rewrite (bind_Return _ _ _ _ _ (findCustomer_Some _ _ _ _ _ _ Hcs Hi Hc)).
  replace (findIndex _ _) with (@None nat); [reflexivity|].
  symmetry. apply findIndex_None. intros t Ht.
  unfold txHasId. apply String.eqb_neq. intros E. apply Hno.
  apply in_map_iff. eauto.
Qed.

Lemma customer_gone cs customerId :
  findIndex (hasId (number := number) customerId)
    (List.filter (fun c => negb (hasId customerId c)) cs) = None.
Proof.
  apply findIndex_None. intros c Hc. apply filter_In in Hc as [_ Hc].
  now apply negb_true_iff in Hc.
Qed.

(** C7. For a logged-in user, [deleteCustomer] returns and leaves the
    customers with another identifier, in their order; [getCustomers]
    then lists no customer with the deleted identifier, and the
    operations on its transactions answer that the customer is not found.
    With an identifier that is not in the list the call returns all the
    same and the list and the database are as before. [deleteTransaction]
    with an identifier that the customer does not hold throws
    "Transaction not found". *)
Theorem C7_deleteCustomer_removes_or_ignores :
  forall w token username customerId cs,
    logged_in atob w token username ->
    customers (db w) !! username = Some cs ->
    exists w' cs',
      deleteCustomer atob token customerId w = Return tt w' /\
      getCustomers atob token w' = Return cs' w' /\
      cs' = List.filter (fun c => negb (String.eqb (Customer.id c) customerId)) cs /\
      (forall c, In c cs' <-> In c cs /\ Customer.id c <> customerId) /\
      ~ In customerId (map Customer.id cs') /\
      (forall transactionId,
          toggleTransactionPaid atob token customerId transactionId w'
            = Throw CustomerNotFound w' /\
          deleteTransaction atob token customerId transactionId w'
            = Throw CustomerNotFound w') /\
      (forall now txData,
          addTransaction atob isoDate now token customerId txData w'
            = Throw CustomerNotFound w') /\
      (~ In customerId (map Customer.id cs) -> cs' = cs /\ db w' = db w) /\
      (forall i customer transactionId,
          findIndex (hasId customerId) cs = Some i -> cs !! i = Some customer ->
          ~ In transactionId (map Transaction.id (Customer.transactions customer)) ->
          deleteTransaction atob token customerId transactionId w
            = Throw TransactionNotFound w).
Proof.
  intros w token username customerId cs Hin Hcs.
  set (cs' := List.filter (fun c => negb (hasId customerId c)) cs).
  set (w' := stored w username cs').
  assert (Hcs' : customers (db w') !! username = Some cs') by apply stored_customers.
  assert (Hgone : findCustomer username customerId w' = Throw CustomerNotFound w').
  { apply (findCustomer_None _ _ _ _ Hcs'), customer_gone. }
  assert (Hmem : forall c, In c cs' <-> In c cs /\ Customer.id c <> customerId).
  { intros c. unfold cs'. rewrite filter_In. unfold hasId.
    rewrite negb_true_iff, String.eqb_neq. tauto. }
  exists w', cs'. split; [|split; [|split; [|split; [|split; [|split; [|split; [|split]]]]]]].
  - now apply deleteCustomer_run.
  - rewrite (getCustomers_run atob w' token username) by exact Hin.
    now rewrite Hcs'.
  - reflexivity.
  - exact Hmem.
  - intros H. apply in_map_iff in H as (c & E & Hc). apply Hmem in Hc. tauto.
  - intros transactionId. split.
    + unfold toggleTransactionPaid.
      rewrite (bind_Return _ _ _ _ _ (authenticate_logged_in atob _ w' _ _ Hin)).
      now rewrite (bind_Throw _ _ _ _ _ Hgone).
    + unfold deleteTransaction.
      rewrite (bind_Return _ _ _ _ _ (authenticate_logged_in atob _ w' _ _ Hin)).
      now rewrite (bind_Throw _ _ _ _ _ Hgone).
  - intros now txData. unfold addTransaction.
    rewrite (bind_Return _ _ _ _ _ (authenticate_logged_in atob _ w' _ _ Hin)).
    now rewrite (bind_Throw _ _ _ _ _ Hgone).
  - intros Habsent.
    assert (E : cs' = cs).
    { apply filter_all. intros c Hc. unfold hasId.
      apply negb_true_iff, String.eqb_neq. intros E. apply Habsent.
      apply in_map_iff. eauto. }
    split; [exact E|]. unfold w'. rewrite E. now apply stored_db_same.
  - intros i customer transactionId. now apply (deleteTransaction_missing _ _ username _ _ cs).
Qed.

End CustomerProperties.

(** ** Users *)

Section UserProperties.
Context {number : Type}.
Variable hashString : string -> string.
Variable btoa : string -> string.
Variable atob : string -> option string.

Abbreviation W := (World number).
Implicit Types (w : W) (u v : User.t) (us : list User.t).

Abbreviation key := (fun u : User.t => Str.toLowerCase (User.username u)).

Lemma matches_true username u :
  matches username u = true <-> Str.same_ignoring_case username (User.username u).
Proof.
  unfold matches, Str.same_ignoring_case. rewrite String.eqb_eq.
  split; congruence.
Qed.

Lemma matches_false username u :
  matches username u = false <-> ~ Str.same_ignoring_case username (User.username u).
Proof.
  rewrite <- matches_true. destruct (matches username u); split; congruence.
Qed.

Lemma unique_key us u v :
  NoDup (map key us) -> In u us -> In v us -> key u = key v -> u = v.
Proof.
  intros Hnd Hu Hv E.
  apply list_elem_of_In, list_elem_of_lookup in Hu as (i & Hi).
  apply list_elem_of_In, list_elem_of_lookup in Hv as (j & Hj).
  assert (i = j) as ->.
  { apply (NoDup_lookup _ i j (key u) Hnd).
    - change (map key us) with (key <$> us). now rewrite list_lookup_fmap, Hi.
    - change (map key us) with (key <$> us). rewrite list_lookup_fmap, Hj. simpl.
      now rewrite E. }
  congruence.
Qed.


Lemma findIndex_matches w username u :
  usernames_unique w -> In u (users (db w)) ->
  Str.same_ignoring_case username (User.username u) ->
  exists i, findIndex (matches username) (users (db w)) = Some i /\
            users (db w) !! i = Some u.
Proof.
  intros Hnd Hu Hsame.
  destruct (findIndex_In (matches username) _ u Hu) as (i & Hi).
  { now apply matches_true. }
  exists i. split; [assumption|].
  destruct (findIndex_Some _ _ _ Hi) as (v & Hv & Hm & _).
  rewrite Hv. f_equal. apply matches_true in Hm.
  apply (unique_key _ _ _ Hnd); auto.
  - apply list_elem_of_In, list_elem_of_lookup. eauto.
  - unfold Str.same_ignoring_case in *. congruence.
Qed.

Lemma login_run w username password :
  login hashString btoa username password w =
    match find (matches username) (users (db w)) with
    | None => Throw UserNotFound w
    | Some user =>
        if String.eqb (User.passwordHash user) (hashString password)
        then Return (btoa (User.username user), User.username user) w
        else Throw IncorrectPassword w
    end.
Proof.
  unfold login, bind, getDb. destruct (find _ _) as [user|]; [|reflexivity].
  now destruct (String.eqb _ _).
Qed.


(** *** Recovery *)

(** What [register] stores for the user it creates. *)
Lemma register_stores w userData p w' :
  register hashString btoa userData w = Return p w' ->
  p = (btoa (UserData.username userData), UserData.username userData) /\
  users (db w') =
    users (db w) ++
      [ {| User.username := UserData.username userData;
           User.passwordHash := hashString (UserData.password userData);
           User.recoveryQuestion := UserData.recoveryQuestion userData;
           User.recoveryAnswerHash :=
             hashString (Str.toLowerCase (UserData.recoveryAnswer userData)) |} ] /\
  forall u, In u (users (db w)) ->
            ~ Str.same_ignoring_case (UserData.username userData) (User.username u).
Proof.
  unfold register, bind, getDb. simpl.
  destruct (existsb _ _) eqn:Hex; [discriminate|].
  unfold setUsers, setCustomers, persistUsers, persistCustomers. simpl.
  rewrite lookup_insert_eq. unfold ret. intros [= <- <-]. simpl.
  repeat split. intros u Hu. apply matches_false.
  destruct (matches _ u) eqn:Hm; [|reflexivity].
  rewrite <- Hex. symmetry. apply existsb_exists. eauto.
Qed.

Lemma key_setPasswordHash h us i :
  map key (alter (setPasswordHash h) i us) = map key us.
Proof.
  revert i. induction us as [|a us IH]; intros [|i]; simpl; try reflexivity.
  f_equal. apply IH.
Qed.



(** *** Renaming *)

Hypothesis atob_btoa : forall s, atob (btoa s) = Some s.


Lemma existsb_matches_false w newUsername :
  (forall u, In u (users (db w)) ->
             ~ Str.same_ignoring_case newUsername (User.username u)) ->
  existsb (matches newUsername) (users (db w)) = false.
Proof.
  intros H. destruct (existsb _ _) eqn:E; [|reflexivity].
  apply existsb_exists in E as (u & Hu & Hm). apply matches_true in Hm.
  now destruct (H u Hu).
Qed.




(** C10. For a logged-in user, [updateUsername] with a name that is a
    registered name up to letter case throws "This username is already
    taken." and leaves the state as it was; the caller's own name, in any
    letter case, is such a name. The handler of the profile dialog never
    sends that case to the API: when the trimmed input is the current
    user's name up to letter case it reports success, closes the dialog
    and leaves session and state untouched. *)
Theorem C10_updateUsername_rejects_registered_names :
  forall w token username newUsername,
    logged_in atob w token username ->
    ((exists u, In u (users (db w)) /\
                Str.same_ignoring_case newUsername (User.username u)) ->
     updateUsername btoa atob token newUsername w = Throw UsernameTakenOnRename w) /\
    (Str.case_variant newUsername username ->
     updateUsername btoa atob token newUsername w = Throw UsernameTakenOnRename w) /\
    (forall (st : App.State) (input : string),
        App.authToken st = Some token -> token <> "" ->
        App.currentUser st = Some username ->
        Str.same_ignoring_case (Str.trim input) username ->
        updateUsername btoa atob token (Str.trim input) w
          = Throw UsernameTakenOnRename w /\
        App.handleUpdateUsername btoa atob input st w
          = (App.succeeded, App.setIsEditingProfile false st, w)).
Proof.
  intros w token username newUsername Hin.
  assert (Htaken : forall n,
    (exists u, In u (users (db w)) /\ Str.same_ignoring_case n (User.username u)) ->
    updateUsername btoa atob token n w = Throw UsernameTakenOnRename w).
  { intros n (u & Hu & Hsame). unfold updateUsername.
    rewrite (bind_Return _ _ _ _ _ (authenticate_logged_in atob _ _ _ _ Hin)).
    unfold bind, getDb.
    replace (existsb _ _) with true; [reflexivity|].
    symmetry. apply existsb_exists. exists u. split; [assumption|].
    now apply matches_true. }
  assert (Hown : forall n, Str.same_ignoring_case n username ->
    updateUsername btoa atob token n w = Throw UsernameTakenOnRename w).
  { intros n Hsame. pose proof Hin as (_ & _ & u & Hu & E).
    apply Htaken. exists u. split; [assumption|]. now rewrite E. }
  split; [apply Htaken|]. split.
  - intros Hcv. apply Hown. now apply case_variant_same.
  - intros st input Htok Hne Hcur Hsame. split; [now apply Hown|].
    unfold App.handleUpdateUsername. rewrite Htok, (falsy_false _ Hne).
    unfold App.sameAsCurrent. rewrite Hcur.
    now rewrite (proj2 (String.eqb_eq _ _) Hsame).
Qed.

End UserProperties.

(** ** Totals *)

Section TotalsProperties.
Context {number : Type}.
Variable zero : number.
Variables add mul : number -> number -> number.

Hypothesis add_assoc : forall a b c, add a (add b c) = add (add a b) c.
Hypothesis add_zero_l : forall a, add zero a = a.
Hypothesis add_zero_r : forall a, add a zero = a.
Hypothesis mul_comm : forall a b, mul a b = mul b a.

Implicit Types (ts : list (Transaction.t number)) (p : Transaction.t number -> bool).





End TotalsProperties.


(** The same customer in the binary64 arithmetic of JavaScript numbers:
    the products and sums of the example are exact. *)
Lemma totals_example_binary64 :
  forall id name id1 id2 product1 product2 date1 date2,
    let customer :=
      {| Customer.id := id; Customer.name := name;
         Customer.transactions :=
           [ Transaction.Build id1 product1 2%float 50%float false date1;
             Transaction.Build id2 product2 1%float 30%float true date2 ] |} in
    totalDue (stats 0%float PrimFloat.add PrimFloat.mul customer) = 100%float /\
    calculateTotalDue 0%float PrimFloat.add PrimFloat.mul customer = 100%float /\
    totalSpent (stats 0%float PrimFloat.add PrimFloat.mul customer) = 130%float.
Proof. intros. repeat split. Qed.

(** Addition of binary64 numbers is not associative, so the order of the
    [reduce] matters there: the laws assumed for C1 are those of exact
    arithmetic. *)
Lemma binary64_add_not_associative :
  PrimFloat.add (PrimFloat.add 0x1p53%float 1%float) 1%float
  <> PrimFloat.add 0x1p53%float (PrimFloat.add 1%float 1%float).
Proof. vm_compute. intros H. discriminate H. Qed.

(** ** Errors leave no trace *)

Section ErrorAtomicity.
Context {number : Type}.
Variable hashString : string -> string.
Variable btoa : string -> string.
Variable atob : string -> option string.
Variable isoDate : string -> string.


Lemma state_of_fmap {A B} (f : A -> B) (m : M (World number) A) w :
  state_of (fmap_M f m w) = state_of (m w).
Proof. unfold fmap_M, bind, ret. now destruct (m w). Qed.

End ErrorAtomicity.

(** ** What each call does to the state *)

Section Transitions.
Context {number : Type}.
Variable hashString : string -> string.
Variable btoa : string -> string.
Variable atob : string -> option string.
Variable isoDate : string -> string.

Abbreviation W := (World number).
Implicit Types (w : W) (cs : list (Customer.t number)).

Lemma authenticate_cases e token w :
  authenticate atob e token w = Throw e w \/
  exists username,
    logged_in atob w token username /\ authenticate atob e token w = Return username w.
Proof.
  destruct (authenticate atob e token w) as [username w1|e1 w1] eqn:Ha.
  - right. apply authenticate_Return in Ha as Hr. destruct Hr as [-> Hin]. eauto.
  - left. apply authenticate_Throw in Ha as Hr. now destruct Hr as [-> ->].
Qed.

Lemma customersOf_cases username w :
  customersOf username w = Throw TypeError w \/
  exists cs, customers (db w) !! username = Some cs /\ customersOf username w = Return cs w.
Proof.
  unfold customersOf, bind, getDb.
  destruct (customers (db w) !! username) as [cs|]; [right; eauto | now left].
Qed.

Lemma findCustomer_cases username customerId w :
  (exists e, findCustomer username customerId w = Throw e w) \/
  exists cs i c,
    customers (db w) !! username = Some cs /\ cs !! i = Some c /\
    findCustomer username customerId w = Return (i, c) w.
Proof.
  unfold findCustomer.
  destruct (customersOf_cases username w) as [E|(cs & Hcs & E)].
  - left. exists TypeError. now rewrite (bind_Throw _ _ _ _ _ E).
  - rewrite (bind_Return _ _ _ _ _ E).
    destruct (findIndex (hasId customerId) cs) as [i|]; [|left; now eexists].
    destruct (cs !! i) as [c|] eqn:Hc; [|left; now eexists].
    right. exists cs, i, c. auto.
Qed.

(** Opens an operation on customers along its two checks. *)
Ltac open_session w token :=
  let E := fresh "E" in
  let Hin := fresh "Hin" in
  let username := fresh "username" in
  destruct (authenticate_cases Unauthorized token w) as [E|(username & Hin & E)];
  [ rewrite (bind_Throw _ _ _ _ _ E); apply change_none
  | rewrite (bind_Return _ _ _ _ _ E) ].

Ltac open_customer w username customerId :=
  let E := fresh "E" in
  let e := fresh "e" in
  let cs := fresh "cs" in
  let i := fresh "i" in
  let c := fresh "c" in
  let Hcs := fresh "Hcs" in
  let Hc := fresh "Hc" in
  destruct (findCustomer_cases username customerId w)
    as [(e & E)|(cs & i & c & Hcs & Hc & E)];
  [ rewrite (bind_Throw _ _ _ _ _ E); apply change_none
  | rewrite (bind_Return _ _ _ _ _ E) ].

Lemma exec_change (c : Call (number := number)) w :
  change hashString isoDate w c (state_of (exec hashString btoa atob isoDate c w)).
Proof.
  destruct c; unfold exec; rewrite state_of_fmap.
  - (* login *)
    rewrite login_run. destruct (find _ _); [destruct (String.eqb _ _)|]; apply change_none.
  - (* register *)
    destruct (register hashString btoa userData w) as [p w'|e w'] eqn:E.
    + assert (Hfree := proj2 (proj2 (register_stores _ _ _ _ _ _ E))).
      revert E. unfold register, bind, getDb.
      rewrite (existsb_matches_false _ _ Hfree).
      unfold setUsers, setCustomers, persistUsers, persistCustomers, ret. simpl.
      rewrite lookup_insert_eq. intros [= _ <-]. now apply change_register.
    + assert (Ha : atomic (register (number := number) hashString btoa userData)).
      { intros s e1 s1 H. now apply (atomic_exec hashString btoa atob isoDate
                                        (Register userData) s e1 s1);
          unfold exec, fmap_M; rewrite (bind_Throw _ _ _ _ _ H). }
      simpl. rewrite (Ha _ _ _ E). apply change_none.
  - (* findUserForRecovery *)
    unfold findUserForRecovery, bind, getDb. destruct (find _ _); apply change_none.
  - (* verifyRecoveryAnswer *)
    unfold verifyRecoveryAnswer, bind, getDb.
    destruct (find _ _); [destruct (negb _)|]; apply change_none.
  - (* resetPassword *)
    unfold resetPassword, bind, getDb.
    destruct (findIndex _ _) as [i|] eqn:Hi; [|apply change_none].
    destruct (findIndex_Some _ _ _ Hi) as (u & Hu & _).
    simpl. now apply (change_resetPassword _ _ _ _ _ i u).
  - (* updateUsername *)
    unfold updateUsername.
    destruct (authenticate_cases InvalidSession token w) as [E|(old & Hin & E)];
      [rewrite (bind_Throw _ _ _ _ _ E); apply change_none|].
    rewrite (bind_Return _ _ _ _ _ E). unfold bind at 1. unfold getDb.
    destruct (existsb _ _) eqn:Hex; [apply change_none|].
    destruct (findIndex _ _) as [i|] eqn:Hi; [|apply change_none].
    destruct (findIndex_Some _ _ _ Hi) as (u & Hu & Hold & _).
    apply String.eqb_eq in Hold.
    assert (Hfree : forall v, In v (users (db w)) ->
                              ~ Str.same_ignoring_case newUsername (User.username v)).
    { intros v Hv. apply matches_false. destruct (matches _ v) eqn:Hm; [|reflexivity].
      rewrite <- Hex. symmetry. apply existsb_exists. eauto. }
    assert (Hne : newUsername <> old).
    { intros ->. apply (Hfree u).
      - apply list_elem_of_In, list_elem_of_lookup. eauto.
      - now rewrite Hold. }
    unfold bind, setUsers, setCustomers, persistUsers, persistCustomers,
      removeCustomerData, ret. simpl.
    rewrite lookup_delete_ne by congruence. rewrite lookup_insert_eq. simpl.
    rewrite <- Hold. now apply (change_updateUsername _ _ _ _ _ i u).
  - (* getCustomers *)
    unfold getCustomers. open_session w token. apply change_none.
  - (* addCustomer *)
    unfold addCustomer. open_session w token.
    destruct (customersOf_cases username w) as [E1|(cs & Hcs & E1)];
      [rewrite (bind_Throw _ _ _ _ _ E1); apply change_none|].
    rewrite (bind_Return _ _ _ _ _ E1).
    unfold bind, getDb, setCustomers, persistCustomers, ret. simpl.
    rewrite lookup_insert_eq. simpl. now apply change_addCustomer.
  - (* renameCustomer *)
    unfold renameCustomer. open_session w token. open_customer w username customerId. cbv beta iota.
    rewrite (store_persist _ _ _ _ _ (ret _) Hcs). simpl. now apply change_renameCustomer.
  - (* deleteCustomer *)
    unfold deleteCustomer. open_session w token.
    destruct (customersOf_cases username w) as [E1|(cs & Hcs & E1)];
      [rewrite (bind_Throw _ _ _ _ _ E1); apply change_none|].
    rewrite (bind_Return _ _ _ _ _ E1).
    unfold bind, getDb, setCustomers, persistCustomers, ret. simpl.
    rewrite lookup_insert_eq. simpl. now apply change_deleteCustomer.
  - (* addTransaction *)
    unfold addTransaction. open_session w token. open_customer w username customerId. cbv beta iota.
    rewrite (store_persist _ _ _ _ _ (ret _) Hcs). simpl. now apply change_addTransaction.
  - (* toggleTransactionPaid *)
    unfold toggleTransactionPaid. open_session w token. open_customer w username customerId. cbv beta iota.
    destruct (lastToggled _ _); [|apply change_none].
    rewrite (store_persist _ _ _ _ _ (ret _) Hcs). simpl. now apply change_toggleTransactionPaid.
  - (* deleteTransaction *)
    unfold deleteTransaction. open_session w token. open_customer w username customerId. cbv beta iota.
    destruct (findIndex _ _); [|apply change_none].
    rewrite (bind_Return _ _ _ _ _ (storeCustomer_run _ _ _ i _ Hcs)).
    unfold persistCustomers. simpl. rewrite lookup_insert_eq. simpl.
    now apply change_deleteTransaction.
Qed.

End Transitions.

(** ** Invariants of the reachable states *)

Section Invariants.
Context {number : Type}.
Variable hashString : string -> string.
Variable btoa : string -> string.
Variable atob : string -> option string.
Variable isoDate : string -> string.

Abbreviation W := (World number).
Implicit Types (w : W) (cs : list (Customer.t number)) (c : Customer.t number).

Abbreviation key := (fun u : User.t => Str.toLowerCase (User.username u)).

Lemma In_insert {A} (l : list A) i x y : In y (<[i := x]> l) -> y = x \/ In y l.
Proof.
  revert i. induction l as [|a l IH]; intros [|i]; simpl; try tauto.
  - intros [<-|H]; auto.
  - intros [<-|H]; auto. destruct (IH i H); auto.
Qed.

Lemma NoDup_insert_fresh {A} (l : list A) i x :
  NoDup l -> ~ In x l -> NoDup (<[i := x]> l).
Proof.
  revert i. induction l as [|a l IH]; intros [|i] Hnd Hx; simpl; try assumption.
  - inversion Hnd; subst. constructor; [|assumption].
    rewrite list_elem_of_In. simpl in Hx. tauto.
  - inversion Hnd as [|? ? Ha Hl]; subst. rewrite list_elem_of_In in Ha.
    constructor.
    + rewrite list_elem_of_In. intros H. apply In_insert in H as [->|H].
      * simpl in Hx. tauto.
      * contradiction.
    + apply IH; [assumption|]. simpl in Hx. tauto.
Qed.

Lemma key_setUsername n us i :
  map key (alter (setUsername n) i us) = <[i := Str.toLowerCase n]> (map key us).
Proof.
  revert i. induction us as [|a us IH]; intros [|i]; simpl; try reflexivity.
  f_equal. apply IH.
Qed.

Lemma fresh_key n us :
  (forall u, In u us -> ~ Str.same_ignoring_case n (User.username u)) ->
  ~ In (Str.toLowerCase n) (map key us).
Proof.
  intros Hfree H. apply in_map_iff in H as (u & E & Hu).
  apply (Hfree u Hu). unfold Str.same_ignoring_case. congruence.
Qed.

(** Every call keeps user names unique up to letter case. *)
Lemma usernames_unique_change w (call : Call (number := number)) w' :
  change hashString isoDate w call w' -> usernames_unique w -> usernames_unique w'.
Proof.
  unfold usernames_unique. intros Hch Hnd.
  destruct Hch; simpl; try assumption.
  - rewrite map_app. apply NoDup_app. split; [assumption|]. split.
    + intros x Hx [<-|[]]%list_elem_of_In. apply list_elem_of_In in Hx.
      now apply (fresh_key (UserData.username userData) (users (db w))).
    + apply NoDup_singleton.
  - now rewrite key_setPasswordHash.
  - rewrite key_setUsername. apply NoDup_insert_fresh; [assumption|].
    now apply fresh_key.
Qed.

Lemma reachable_usernames_unique w :
  reachable hashString btoa atob isoDate w -> usernames_unique w.
Proof.
  induction 1 as [|w call _ IH].
  - constructor.
  - eapply usernames_unique_change; [apply exec_change | exact IH].
Qed.

Lemma In_alter {A} (f : A -> A) (l : list A) i y :
  In y (alter f i l) -> In y l \/ exists x, l !! i = Some x /\ y = f x.
Proof.
  revert i. induction l as [|a l IH]; intros [|i]; simpl; try tauto.
  - intros [<-|H]; eauto.
  - intros [<-|H]; auto. destruct (IH i H) as [?|(x & ? & ?)]; eauto.
Qed.

Lemma well_formed_change w (call : Call (number := number)) w' :
  change hashString isoDate w call w' -> well_formed w -> well_formed w'.
Proof.
  intros Hch Hwf. split; [eapply usernames_unique_change; [exact Hch | apply Hwf]|].
  destruct Hwf as (Hnd & Hlist & Hdata & Husers).
  destruct Hch as
    [ call | userData Hfree | username newPassword i u Hu | token newUsername i u Hu Hfree
    | now token name username cs Hcs | token customerId newName username cs i c Hcs Hc
    | token customerId username cs Hcs | now token customerId txData username cs i c Hcs Hc
    | token customerId transactionId username cs i c Hcs Hc
    | token customerId transactionId username cs i c Hcs Hc ];
    try (split; [|split; [simpl; now rewrite Hdata | exact Husers]];
         intros v Hv; simpl; apply lookup_insert_is_Some'; right; now apply Hlist).
  - auto.
  - split; [|split; [simpl; now rewrite Hdata | reflexivity]].
    intros v [Hv|[<-|[]]]%in_app_iff; simpl; apply lookup_insert_is_Some'.
    + right. now apply Hlist.
    + now left.
  - split; [|split; [exact Hdata | reflexivity]].
    intros v [Hv|(x & Hx & ->)]%In_alter; simpl; apply Hlist; [assumption|].
    apply list_elem_of_In, list_elem_of_lookup. eauto.
  - assert (Hne : newUsername <> User.username u).
    { intros ->. apply (Hfree u); [|reflexivity].
      apply list_elem_of_In, list_elem_of_lookup. eauto. }
    split; [|split; [simpl; now rewrite Hdata | reflexivity]].
    intros v Hv. simpl in Hv |- *.
    apply list_elem_of_In, list_elem_of_lookup in Hv as (j & Hj).
    destruct (decide (i = j)) as [<-|Hij].
    + rewrite list_lookup_alter_eq, Hu in Hj. injection Hj as <-. simpl.
      rewrite lookup_delete_ne by congruence. rewrite lookup_insert_eq. eauto.
    + rewrite list_lookup_alter_ne in Hj by assumption.
      assert (Hvu : User.username v <> User.username u).
      { intros E. apply Hij. apply (NoDup_lookup _ i j (key u) Hnd).
        - change (map key (users (db w))) with (key <$> users (db w)).
          now rewrite list_lookup_fmap, Hu.
        - change (map key (users (db w))) with (key <$> users (db w)).
          rewrite list_lookup_fmap, Hj. simpl. now rewrite E. }
      rewrite lookup_delete_ne by congruence.
      apply lookup_insert_is_Some'. right. apply Hlist.
      apply list_elem_of_In, list_elem_of_lookup. eauto.
Qed.

Lemma reachable_well_formed w :
  reachable hashString btoa atob isoDate w -> well_formed w.
Proof.
  induction 1 as [|w call _ IH].
  - split; [constructor|]. split; [intros u []|]. split; [reflexivity | now intros []].
  - eapply well_formed_change; [apply exec_change | exact IH].
Qed.

(** In a reachable state a logged-in user has a customer list, and the
    browser storage holds it. *)
Lemma reachable_logged_in w token username :
  reachable hashString btoa atob isoDate w -> logged_in atob w token username ->
  (exists cs, customers (db w) !! username = Some cs) /\ mirrored w username.
Proof.
  intros Hreach (_ & _ & u & Hu & <-).
  destruct (reachable_well_formed w Hreach) as (_ & Hlist & Hdata & _).
  split; [apply (Hlist u Hu)|]. unfold mirrored. now rewrite Hdata.
Qed.

(** *** Transaction identifiers *)












End Invariants.
Ltac Zify.zify_post_hook ::= Z.to_euclidean_division_equations.

(** ** Base64 *)















(** ** The properties on a concrete ledger *)

Lemma sample_users : users (db Sample.ledger) = [Sample.alice_user].
Proof. vm_compute. reflexivity. Qed.

Lemma sample_customers : customers (db Sample.ledger) !! "Alice" = Some [Sample.bob].
Proof. vm_compute. reflexivity. Qed.

Lemma sample_unique : usernames_unique Sample.ledger.
Proof.
  unfold usernames_unique. rewrite sample_users. simpl. apply NoDup_singleton.
Qed.

Lemma sample_logged_in : logged_in Base64.atob Sample.ledger Sample.token "Alice".
Proof.
  split; [vm_compute; reflexivity|]. split; [discriminate|].
  exists Sample.alice_user. rewrite sample_users. split; [now left | reflexivity].
Qed.

Lemma sample_mirrored : mirrored Sample.ledger "Alice".
Proof. vm_compute. reflexivity. Qed.





Lemma C10_witness :
  updateUsername Base64.btoa Base64.atob Sample.token "ALICE" Sample.ledger
    = Throw UsernameTakenOnRename Sample.ledger /\
  App.handleUpdateUsername Base64.btoa Base64.atob " alice " Sample.editing Sample.ledger
    = (App.succeeded, App.setIsEditingProfile false Sample.editing, Sample.ledger).
Proof.
  destruct (C10_updateUsername_rejects_registered_names Base64.btoa Base64.atob
              Sample.ledger Sample.token "Alice" "ALICE" sample_logged_in)
    as (_ & Hown & Hui).
  split.
  - apply Hown. apply case_variant_same. reflexivity.
  - apply (Hui Sample.editing " alice "); [reflexivity | discriminate | reflexivity |].
    reflexivity.
Defined.

Lemma C4_witness :
  exists r w1 r2 w2,
    toggleTransactionPaid Base64.atob Sample.token "1700000000000" "1700000000500"
      Sample.ledger = Return r w1 /\
    Transaction.isPaid r = true /\
    toggleTransactionPaid Base64.atob Sample.token "1700000000000" "1700000000500" w1
      = Return r2 w2 /\
    w2 = Sample.ledger.
Proof.
  destruct (C4_toggleTransactionPaid_involution Base64.atob Sample.ledger Sample.token
              "Alice" "1700000000000" "1700000000500" [Sample.bob] 0 Sample.bob)
    as (r & w1 & c1 & Hrun & _ & _ & _ & _ & (k & t & Hk & _ & _ & Hpaid & _) & _
        & r2 & w2 & Hrun2 & _ & Hback).
  - exact sample_logged_in.
  - exact sample_customers.
  - reflexivity.
  - reflexivity.
  - now left.
  - exists r, w1, r2, w2. destruct k as [|k]; [|discriminate]. injection Hk as <-.
    split; [exact Hrun|]. split; [exact Hpaid|]. split; [exact Hrun2|].
    exact (Hback sample_mirrored).
Defined.


Lemma C7_witness :
  exists w',
    deleteCustomer Base64.atob Sample.token "1700000000000" Sample.ledger = Return tt w' /\
    getCustomers Base64.atob Sample.token w' = Return [] w' /\
    deleteTransaction Base64.atob Sample.token "1700000000000" "1700000000500" w'
      = Throw CustomerNotFound w'.
Proof.
  destruct (C7_deleteCustomer_removes_or_ignores Base64.atob Sample.isoDate Sample.ledger
              Sample.token "Alice" "1700000000000" [Sample.bob])
    as (w' & cs' & Hrun & Hget & -> & _ & _ & Hgone & _).
  - exact sample_logged_in.
  - exact sample_customers.
  - exists w'. split; [exact Hrun|]. split; [exact Hget|].
    apply (Hgone "1700000000500").
Defined.




(** ** Where the specification and the code part *)



(** * Further properties of the code *)

(** ** The customer operations, run *)

Section CustomerRuns.
Context {number : Type}.
Variable hashString : string -> string.
Variable btoa : string -> string.
Variable atob : string -> option string.
Variable isoDate : string -> string.

Abbreviation W := (World number).
Implicit Types (w : W) (cs : list (Customer.t number)).

Lemma addCustomer_run now w token username name cs :
  logged_in atob w token username ->
  customers (db w) !! username = Some cs ->
  let newCustomer :=
    {| Customer.id := toString now; Customer.name := name;
       Customer.transactions := [] |} in
  addCustomer atob now token name w
    = Return newCustomer (stored w username (cs ++ [newCustomer])).
Proof.
  intros Hin Hcs newCustomer. unfold addCustomer.
  rewrite (bind_Return _ _ _ _ _ (authenticate_logged_in atob _ _ _ _ Hin)).
  rewrite (bind_Return _ _ _ _ _ (customersOf_Some _ _ _ Hcs)).
  unfold bind, getDb, setCustomers, persistCustomers, ret. simpl.
  now rewrite lookup_insert_eq.
Qed.

Lemma renameCustomer_run w token username customerId newName cs i c :
  logged_in atob w token username ->
  customers (db w) !! username = Some cs ->
  findIndex (hasId customerId) cs = Some i -> cs !! i = Some c ->
  renameCustomer atob token customerId newName w
    = Return (setName newName c) (stored w username (<[i := setName newName c]> cs)).
Proof.
  intros Hin Hcs Hi Hc. unfold renameCustomer.
  rewrite (bind_Return _ _ _ _ _ (authenticate_logged_in atob _ _ _ _ Hin)).
  rewrite (bind_Return _ _ _ _ _ (findCustomer_Some _ _ _ _ _ _ Hcs Hi Hc)).
  cbv beta iota. now rewrite (store_persist _ _ _ _ _ (ret _) Hcs).
Qed.

Lemma addTransaction_run now w token username customerId (txData : TxData.t number)
    cs i c :
  logged_in atob w token username ->
  customers (db w) !! username = Some cs ->
  findIndex (hasId customerId) cs = Some i -> cs !! i = Some c ->
  let newTransaction :=
    {| Transaction.id := toString now;
       Transaction.productName := TxData.productName txData;
       Transaction.quantity := TxData.quantity txData;
       Transaction.amount := TxData.price txData;
       Transaction.isPaid := false;
       Transaction.date := isoDate (TxData.date txData) |} in
  addTransaction atob isoDate now token customerId txData w
    = Return newTransaction
        (stored w username
           (<[i := setTransactions (newTransaction :: Customer.transactions c) c]> cs)).
Proof.
  intros Hin Hcs Hi Hc newTransaction. unfold addTransaction.
  rewrite (bind_Return _ _ _ _ _ (authenticate_logged_in atob _ _ _ _ Hin)).
  rewrite (bind_Return _ _ _ _ _ (findCustomer_Some _ _ _ _ _ _ Hcs Hi Hc)).
  cbv beta iota. now rewrite (store_persist _ _ _ _ _ (ret _) Hcs).
Qed.

Lemma deleteTransaction_run w token username customerId transactionId cs i c :
  logged_in atob w token username ->
  customers (db w) !! username = Some cs ->
  findIndex (hasId customerId) cs = Some i -> cs !! i = Some c ->
  In transactionId (map Transaction.id (Customer.transactions c)) ->
  deleteTransaction atob token customerId transactionId w
    = Return tt
        (stored w username
           (<[i := setTransactions
                     (List.filter (fun t => negb (txHasId transactionId t))
                        (Customer.transactions c)) c]> cs)).
Proof.
  intros Hin Hcs Hi Hc Htx. unfold deleteTransaction.
  rewrite (bind_Return _ _ _ _ _ (authenticate_logged_in atob _ _ _ _ Hin)).
  rewrite (bind_Return _ _ _ _ _ (findCustomer_Some _ _ _ _ _ _ Hcs Hi Hc)).
  cbv beta iota.
  apply in_map_iff in Htx as (t & E & Ht).
  destruct (findIndex_In (txHasId transactionId) _ t Ht) as (k & ->).
  { unfold txHasId. now apply String.eqb_eq. }
  rewrite (bind_Return _ _ _ _ _ (storeCustomer_run _ _ _ i _ Hcs)).
  unfold persistCustomers. simpl. now rewrite lookup_insert_eq.
Qed.

Lemma authenticate_refused e w token :
  (forall username, ~ logged_in atob w token username) ->
  authenticate atob e token w = Throw e w.
Proof.
  intros Hno. destruct (authenticate_cases atob e token w) as [E|(username & Hin & _)];
    [exact E | now destruct (Hno username)].
Qed.

(** A customer operation leaves the state alone or rewrites the list of
    the user the token names. *)
Lemma customer_call_state (call : Call (number := number)) token w :
  tokenOf call = Some token ->
  state_of (exec hashString btoa atob isoDate call w) = w \/
  exists username cs',
    logged_in atob w token username /\
    state_of (exec hashString btoa atob isoDate call w) = stored w username cs'.
Proof.
  intros Htok.
  destruct (authenticate_cases atob Unauthorized token w) as [E|(username & Hin & E)].
  { left. destruct call; try discriminate Htok; injection Htok as ->;
      unfold exec; rewrite state_of_fmap;
      [unfold getCustomers | unfold addCustomer | unfold renameCustomer
      | unfold deleteCustomer | unfold addTransaction | unfold toggleTransactionPaid
      | unfold deleteTransaction];
      now rewrite (bind_Throw _ _ _ _ _ E). }
  destruct (customers (db w) !! username) as [cs|] eqn:Hcs.
  2:{ left.
      destruct call; try discriminate Htok; injection Htok as ->;
        unfold exec; rewrite state_of_fmap.
      - unfold getCustomers. now rewrite (bind_Return _ _ _ _ _ E).
      - unfold addCustomer. rewrite (bind_Return _ _ _ _ _ E).
        unfold customersOf, bind, getDb. now rewrite Hcs.
      - unfold renameCustomer, findCustomer. rewrite (bind_Return _ _ _ _ _ E).
        unfold customersOf, bind, getDb. now rewrite Hcs.
      - unfold deleteCustomer. rewrite (bind_Return _ _ _ _ _ E).
        unfold customersOf, bind, getDb. now rewrite Hcs.
      - unfold addTransaction, findCustomer. rewrite (bind_Return _ _ _ _ _ E).
        unfold customersOf, bind, getDb. now rewrite Hcs.
      - unfold toggleTransactionPaid, findCustomer. rewrite (bind_Return _ _ _ _ _ E).
        unfold customersOf, bind, getDb. now rewrite Hcs.
      - unfold deleteTransaction, findCustomer. rewrite (bind_Return _ _ _ _ _ E).
        unfold customersOf, bind, getDb. now rewrite Hcs. }
  destruct call; try discriminate Htok; injection Htok as ->;
    unfold exec; rewrite state_of_fmap.
  - left. unfold getCustomers. now rewrite (bind_Return _ _ _ _ _ E).
  - right. exists username. eexists. split; [exact Hin|].
    now rewrite (addCustomer_run _ _ _ _ _ _ Hin Hcs).
  - destruct (findIndex (hasId customerId) cs) as [i|] eqn:Hi.
    + destruct (findIndex_Some _ _ _ Hi) as (c & Hc & _).
      right. exists username. eexists. split; [exact Hin|].
      now rewrite (renameCustomer_run _ _ _ _ _ _ _ _ Hin Hcs Hi Hc).
    + left. unfold renameCustomer. rewrite (bind_Return _ _ _ _ _ E).
      now rewrite (bind_Throw _ _ _ _ _ (findCustomer_None _ _ _ _ Hcs Hi)).
  - right. exists username. eexists. split; [exact Hin|].
    now rewrite (deleteCustomer_run atob _ _ _ _ _ Hin Hcs).
  - destruct (findIndex (hasId customerId) cs) as [i|] eqn:Hi.
    + destruct (findIndex_Some _ _ _ Hi) as (c & Hc & _).
      right. exists username. eexists. split; [exact Hin|].
      now rewrite (addTransaction_run _ _ _ _ _ _ _ _ _ Hin Hcs Hi Hc).
    + left. unfold addTransaction. rewrite (bind_Return _ _ _ _ _ E).
      now rewrite (bind_Throw _ _ _ _ _ (findCustomer_None _ _ _ _ Hcs Hi)).
  - destruct (findIndex (hasId customerId) cs) as [i|] eqn:Hi.
    + destruct (findIndex_Some _ _ _ Hi) as (c & Hc & _).
      rewrite (toggle_run atob _ _ _ _ _ _ _ _ Hin Hcs Hi Hc).
      destruct (lastToggled _ _); [|now left].
      right. exists username. eexists. split; [exact Hin | reflexivity].
    + left. unfold toggleTransactionPaid. rewrite (bind_Return _ _ _ _ _ E).
      now rewrite (bind_Throw _ _ _ _ _ (findCustomer_None _ _ _ _ Hcs Hi)).
  - destruct (findIndex (hasId customerId) cs) as [i|] eqn:Hi.
    + destruct (findIndex_Some _ _ _ Hi) as (c & Hc & _).
      destruct (in_dec string_dec transactionId
                  (map Transaction.id (Customer.transactions c))) as [Htx|Htx].
      * right. exists username. eexists. split; [exact Hin|].
        now rewrite (deleteTransaction_run _ _ _ _ _ _ _ _ Hin Hcs Hi Hc Htx).
      * left.
        now rewrite (deleteTransaction_missing atob _ _ _ _ _ _ _ _ Hin Hcs Hi Hc Htx).
    + left. unfold deleteTransaction. rewrite (bind_Return _ _ _ _ _ E).
      now rewrite (bind_Throw _ _ _ _ _ (findCustomer_None _ _ _ _ Hcs Hi)).
Qed.

End CustomerRuns.

(** ** Sessions *)

Section SessionProperties.
Context {number : Type}.
Variable hashString : string -> string.
Variable btoa : string -> string.
Variable atob : string -> option string.
Variable isoDate : string -> string.

Abbreviation W := (World number).
Implicit Types (w : W) (cs : list (Customer.t number)).

(** X6. A customer operation called with a token that names no registered
    user (it does not decode, or decodes to the empty name or to a name that
    is not in the directory) throws "Unauthorized" and leaves the state as it
    was; [updateUsername] then throws "Invalid session. Please log in
    again.". *)
Theorem X6_unknown_token_is_refused :
  forall w token,
    (forall username, ~ logged_in atob w token username) ->
    (forall call : Call (number := number),
        tokenOf call = Some token ->
        exec hashString btoa atob isoDate call w = Throw Unauthorized w) /\
    (forall newUsername,
        updateUsername btoa atob token newUsername w = Throw InvalidSession w).
Proof.
  intros w token Hno.
  pose proof (authenticate_refused atob Unauthorized w token Hno) as E.
  split.
  - intros call Htok.
    destruct call; try discriminate Htok; injection Htok as ->;
      unfold exec, fmap_M;
      [unfold getCustomers | unfold addCustomer | unfold renameCustomer
      | unfold deleteCustomer | unfold addTransaction | unfold toggleTransactionPaid
      | unfold deleteTransaction];
      now rewrite (bind_Throw _ _ _ _ _ (bind_Throw _ _ _ _ _ E)).
  - intros newUsername. unfold updateUsername.
    now rewrite (bind_Throw _ _ _ _ _
                   (authenticate_refused atob InvalidSession w token Hno)).
Qed.

(** X8. A customer operation touches nothing of another user: for every
    name other than the one the token decodes to, the customer list in the
    database and in the browser storage is the same after the call as
    before, whatever the call returns or throws; the directory is the same
    too. *)
Theorem X8_other_users_are_untouched :
  forall (call : Call (number := number)) token w other,
    tokenOf call = Some token ->
    atob token <> Some other ->
    let w' := state_of (exec hashString btoa atob isoDate call w) in
    customers (db w') !! other = customers (db w) !! other /\
    debtBookData (localStorage w') !! other = debtBookData (localStorage w) !! other /\
    users (db w') = users (db w) /\
    debtBookUsers (localStorage w') = debtBookUsers (localStorage w).
Proof.
  intros call token w other Htok Hother w'. unfold w'.
  destruct (customer_call_state hashString btoa atob isoDate call token w Htok)
    as [->|(username & cs' & Hin & ->)]; [auto|].
  assert (username <> other) by (destruct Hin as (Hat & _); congruence).
  simpl. now rewrite !lookup_insert_ne by assumption.
Qed.

Hypothesis atob_btoa : forall s, atob (btoa s) = Some s.


(** *** Registration *)



End SessionProperties.

(** ** Customers and transactions, continued *)

Section CustomerExtras.
Context {number : Type}.
Variable atob : string -> option string.

Abbreviation W := (World number).
Implicit Types (w : W) (cs : list (Customer.t number)).

(** X9. For a logged-in user, [addCustomer] returns a customer with the
    given name, the rendering of the clock as identifier and no
    transactions, and puts it at the end of the user's list, after the
    customers that were there, which are unchanged. *)
Theorem X9_addCustomer_appends :
  forall (now : N) w token username name cs,
    logged_in atob w token username ->
    customers (db w) !! username = Some cs ->
    exists w',
      let newCustomer :=
        {| Customer.id := toString now; Customer.name := name;
           Customer.transactions := [] |} in
      addCustomer atob now token name w = Return newCustomer w' /\
      getCustomers atob token w' = Return (cs ++ [newCustomer]) w'.
Proof.
  intros now w token username name cs Hin Hcs. eexists. cbv zeta. split.
  - exact (addCustomer_run atob now w token username name cs Hin Hcs).
  - rewrite (getCustomers_run atob _ token username).
    + now rewrite stored_customers.
    + exact Hin.
Qed.

(** X10. For a logged-in user, [renameCustomer] with an identifier of the
    list gives the new name to the first customer with that identifier and
    returns it; identifier and transactions of that customer, and every
    other position of the list, are as before. With an identifier that is
    not in the list it throws "Customer not found" and changes nothing. *)
Theorem X10_renameCustomer_changes_the_name_only :
  forall w token username customerId newName cs,
    logged_in atob w token username ->
    customers (db w) !! username = Some cs ->
    (In customerId (map Customer.id cs) ->
     exists i c w',
       findIndex (hasId customerId) cs = Some i /\ cs !! i = Some c /\
       let renamed :=
         {| Customer.id := Customer.id c; Customer.name := newName;
            Customer.transactions := Customer.transactions c |} in
       renameCustomer atob token customerId newName w = Return renamed w' /\
       getCustomers atob token w' = Return (<[i := renamed]> cs) w') /\
    (~ In customerId (map Customer.id cs) ->
     renameCustomer atob token customerId newName w = Throw CustomerNotFound w).
Proof.
  intros w token username customerId newName cs Hin Hcs. split.
  - intros Hid. destruct (findIndex_hasId cs customerId Hid) as (i & c & Hi & Hc & _).
    exists i, c. eexists. split; [exact Hi|]. split; [exact Hc|]. split.
    + now apply (renameCustomer_run atob w token username customerId newName cs i c).
    + rewrite (getCustomers_run atob _ token username).
      * now rewrite stored_customers.
      * exact Hin.
  - intros Hno. unfold renameCustomer.
    rewrite (bind_Return _ _ _ _ _ (authenticate_logged_in atob _ _ _ _ Hin)).
    assert (Hnone : findIndex (hasId customerId) cs = None).
    { apply findIndex_None. intros c Hc. unfold hasId. apply String.eqb_neq.
      intros E. apply Hno. apply in_map_iff. eauto. }
    now rewrite (bind_Throw _ _ _ _ _ (findCustomer_None _ _ customerId _ Hcs Hnone)).
Qed.

(** X11. For a logged-in user, a customer of the list and an identifier
    that one of its transactions carries, [deleteTransaction] returns and
    leaves of that customer's sequence the transactions with another
    identifier, in their order: every transaction with the identifier is
    gone. Name and identifier of the customer are kept, and a second
    [deleteTransaction] or a [toggleTransactionPaid] with the identifier then
    throws "Transaction not found". *)
Theorem X11_deleteTransaction_removes_every_match :
  forall w token username customerId transactionId cs i c,
    logged_in atob w token username ->
    customers (db w) !! username = Some cs ->
    findIndex (hasId customerId) cs = Some i ->
    cs !! i = Some c ->
    In transactionId (map Transaction.id (Customer.transactions c)) ->
    exists w' c',
      deleteTransaction atob token customerId transactionId w = Return tt w' /\
      getCustomers atob token w' = Return (<[i := c']> cs) w' /\
      Customer.id c' = Customer.id c /\ Customer.name c' = Customer.name c /\
      Customer.transactions c'
        = List.filter (fun t => negb (String.eqb (Transaction.id t) transactionId))
            (Customer.transactions c) /\
      ~ In transactionId (map Transaction.id (Customer.transactions c')) /\
      deleteTransaction atob token customerId transactionId w'
        = Throw TransactionNotFound w' /\
      toggleTransactionPaid atob token customerId transactionId w'
        = Throw TransactionNotFound w'.
Proof.
  intros w token username customerId transactionId cs i c Hin Hcs Hi Hc Htx.
  set (c' := setTransactions
               (List.filter (fun t => negb (txHasId transactionId t))
                  (Customer.transactions c)) c).
  set (w' := stored w username (<[i := c']> cs)).
  assert (Hcs' : customers (db w') !! username = Some (<[i := c']> cs))
    by apply stored_customers.
  assert (Hi' : findIndex (hasId customerId) (<[i := c']> cs) = Some i).
  { rewrite (findIndex_insert _ _ _ _ _ Hc); [exact Hi | reflexivity]. }
  assert (Hc' : <[i := c']> cs !! i = Some c').
  { apply list_lookup_insert_eq. now apply lookup_lt_Some in Hc. }
  assert (Hgone : ~ In transactionId (map Transaction.id (Customer.transactions c'))).
  { intros H. apply in_map_iff in H as (t & E & Ht). simpl in Ht.
    apply filter_In in Ht as [_ Ht]. unfold txHasId in Ht.
    apply negb_true_iff, String.eqb_neq in Ht. contradiction. }
  exists w', c'. split; [|split; [|split; [|split; [|split; [|split; [|split]]]]]].
  - now apply (deleteTransaction_run atob w token username customerId transactionId cs i c).
  - rewrite (getCustomers_run atob w' token username) by exact Hin. now rewrite Hcs'.
  - reflexivity.
  - reflexivity.
  - reflexivity.
  - exact Hgone.
  - now apply (deleteTransaction_missing atob w' token username customerId transactionId
                 (<[i := c']> cs) i c').
  - rewrite (toggle_run atob w' token username customerId transactionId
               (<[i := c']> cs) i c' Hin Hcs' Hi' Hc').
    now rewrite (lastToggled_None atob (fun d => d) transactionId _ Hgone).
Qed.

(** X12. For a logged-in user and a customer of the list,
    [toggleTransactionPaid] flips [isPaid] of every transaction of the
    customer that carries the identifier, not only of one, and returns the
    last of them in the sequence, flipped; when no transaction carries the
    identifier it throws "Transaction not found" and changes nothing. *)
Theorem X12_toggleTransactionPaid_flips_every_match :
  forall w token username customerId transactionId cs i c,
    logged_in atob w token username ->
    customers (db w) !! username = Some cs ->
    findIndex (hasId customerId) cs = Some i ->
    cs !! i = Some c ->
    (In transactionId (map Transaction.id (Customer.transactions c)) ->
     exists r w' c' k t,
       toggleTransactionPaid atob token customerId transactionId w = Return r w' /\
       getCustomers atob token w' = Return (<[i := c']> cs) w' /\
       Customer.transactions c !! k = Some t /\
       Transaction.id t = transactionId /\
       (forall j t', (k < j)%nat -> Customer.transactions c !! j = Some t' ->
                     Transaction.id t' <> transactionId) /\
       Customer.transactions c' !! k = Some r /\
       (forall j t', Customer.transactions c !! j = Some t' ->
                     Transaction.id t' = transactionId ->
                     exists t'', Customer.transactions c' !! j = Some t'' /\
                                 Transaction.isPaid t'' = negb (Transaction.isPaid t') /\
                                 Transaction.id t'' = transactionId)) /\
    (~ In transactionId (map Transaction.id (Customer.transactions c)) ->
     toggleTransactionPaid atob token customerId transactionId w
       = Throw TransactionNotFound w).
Proof.
  intros w token username customerId transactionId cs i c Hin Hcs Hi Hc.
  rewrite (toggle_run atob w token username customerId transactionId cs i c Hin Hcs Hi Hc).
  split.
  - intros Htx.
    destruct (lastToggled_Some _ _ Htx) as (k & t & Hk & Hid & Hlast & Hafter).
    rewrite Hlast.
    set (c' := setTransactions
                 (map (fun t => if txHasId transactionId t then togglePaid t else t)
                    (Customer.transactions c)) c).
    assert (Hat : forall j t', Customer.transactions c !! j = Some t' ->
                    Transaction.id t' = transactionId ->
                    Customer.transactions c' !! j = Some (togglePaid t')).
    { intros j t' Hj E. unfold c'. simpl.
      change (map ?f ?l) with (f <$> l). rewrite list_lookup_fmap, Hj. simpl.
      unfold txHasId. now rewrite (proj2 (String.eqb_eq _ _) E). }
    exists (togglePaid t), (stored w username (<[i := c']> cs)), c', k, t.
    split; [reflexivity|]. split.
    { rewrite (getCustomers_run atob _ token username) by exact Hin.
      now rewrite stored_customers. }
    split; [exact Hk|]. split; [exact Hid|]. split; [exact Hafter|].
    split; [now apply Hat|].
    intros j t' Hj E. exists (togglePaid t'). split; [now apply Hat|]. split; auto.
  - intros Hno. now rewrite (lastToggled_None atob (fun d => d) transactionId _ Hno).
Qed.

End CustomerExtras.

(** ** Users, continued *)

Section UserExtras.
Context {number : Type}.
Variable hashString : string -> string.
Variable btoa : string -> string.
Variable atob : string -> option string.
Variable isoDate : string -> string.

Abbreviation W := (World number).
Implicit Types (w : W) (u v : User.t) (us : list User.t).


Lemma find_alter_other (p : User.t -> bool) (f : User.t -> User.t) us i u :
  us !! i = Some u -> p u = false -> p (f u) = false ->
  find p (alter f i us) = find p us.
Proof.
  revert i. induction us as [|a us IH]; intros [|i]; simpl; try discriminate.
  - intros [= ->] Hu Hfu. now rewrite Hu, Hfu.
  - intros Hi Hu Hfu. destruct (p a); [reflexivity|]. now apply IH.
Qed.

Lemma map_setPasswordHash {A} (g : User.t -> A) h us i :
  (forall v, g (setPasswordHash h v) = g v) ->
  map g (alter (setPasswordHash h) i us) = map g us.
Proof.
  intros Hg. revert i. induction us as [|a us IH]; intros [|i]; simpl; try reflexivity.
  - now rewrite Hg.
  - f_equal. apply IH.
Qed.

(** X14. [resetPassword] throws "User not found." when no registered name
    is the given one up to letter case. Otherwise, with names unique up to
    letter case, it returns, stores the directory in the browser storage and
    changes nothing but the password hash of that user: names, recovery
    questions and answer hashes, the customer lists and their stored copies
    are as before, and [login] under any other user's name has the outcome
    it had. *)
Theorem X14_resetPassword_changes_one_password :
  forall w username newPassword,
    ((forall u, In u (users (db w)) ->
                ~ Str.same_ignoring_case username (User.username u)) ->
     resetPassword hashString username newPassword w = Throw UserNotFound w) /\
    (usernames_unique w ->
     forall u, In u (users (db w)) ->
       Str.same_ignoring_case username (User.username u) ->
       exists w',
         resetPassword hashString username newPassword w = Return tt w' /\
         customers (db w') = customers (db w) /\
         debtBookData (localStorage w') = debtBookData (localStorage w) /\
         debtBookUsers (localStorage w') = Some (users (db w')) /\
         map User.username (users (db w')) = map User.username (users (db w)) /\
         map User.recoveryQuestion (users (db w'))
           = map User.recoveryQuestion (users (db w)) /\
         map User.recoveryAnswerHash (users (db w'))
           = map User.recoveryAnswerHash (users (db w)) /\
         forall other password,
           ~ Str.same_ignoring_case other (User.username u) ->
           login hashString btoa other password w'
             = match login hashString btoa other password w with
               | Return session _ => Return session w'
               | Throw e _ => Throw e w'
               end).
Proof.
  intros w username newPassword. split.
  - intros Hnone. unfold resetPassword, bind, getDb.
    replace (findIndex _ _) with (@None nat); [reflexivity|].
    symmetry. apply findIndex_None. intros u Hu. apply matches_false. auto.
  - intros Hnd u Hu Hsame.
    destruct (findIndex_matches _ _ _ Hnd Hu Hsame) as (i & Hi & Hiu).
    exists (withPassword hashString w i newPassword).
    assert (Hmap : forall A (g : User.t -> A),
               (forall v, g (setPasswordHash (hashString newPassword) v) = g v) ->
               map g (alter (setPasswordHash (hashString newPassword)) i (users (db w)))
                 = map g (users (db w)))
      by (intros A g Hg; now apply map_setPasswordHash).
    split; [unfold resetPassword, bind, getDb; now rewrite Hi|].
    split; [reflexivity|]. split; [reflexivity|]. split; [reflexivity|].
    split; [now apply Hmap|]. split; [now apply Hmap|]. split; [now apply Hmap|].
    intros other password Hother. rewrite !login_run. simpl.
    rewrite (find_alter_other _ _ _ i u Hiu).
    + now destruct (find _ _) as [v|]; [destruct (String.eqb _ _)|].
    + now apply matches_false.
    + now apply matches_false.
Qed.


End UserExtras.

(** ** The database and the browser storage *)

Section StorageProperties.
Context {number : Type}.
Variable hashString : string -> string.
Variable btoa : string -> string.
Variable atob : string -> option string.
Variable isoDate : string -> string.

Abbreviation W := (World number).
Implicit Types (w : W) (u v : User.t) (us : list User.t).

Abbreviation key := (fun u : User.t => Str.toLowerCase (User.username u)).

Lemma named_iff us k :
  (exists u, In u us /\ User.username u = k) <-> In k (map User.username us).
Proof.
  rewrite in_map_iff. split; intros (u & H1 & H2); exists u; tauto.
Qed.

Lemma directory_stored_change w (call : Call (number := number)) w' :
  change hashString isoDate w call w' -> directory_stored w -> directory_stored w'.
Proof.
  intros Hch Hw. destruct Hch; try exact Hw; now left.
Qed.

Lemma keys_are_users_change w (call : Call (number := number)) w' :
  change hashString isoDate w call w' ->
  usernames_unique w -> keys_are_users w -> keys_are_users w'.
Proof.
  intros Hch Hnd Hkeys.
  destruct Hch as
    [ call | userData Hfree | username newPassword i u Hu | token newUsername i u Hu Hfree
    | now token name username cs Hcs | token customerId newName username cs i c Hcs Hc
    | token customerId username cs Hcs | now token customerId txData username cs i c Hcs Hc
    | token customerId transactionId username cs i c Hcs Hc
    | token customerId transactionId username cs i c Hcs Hc ];
    try (intros k; simpl; rewrite lookup_insert_is_Some, <- (Hkeys k);
         destruct (decide (username = k)) as [<-|Hne]; [|tauto];
         split; [rewrite Hcs; eauto | tauto]).
  - exact Hkeys.
  - intros k. simpl. rewrite lookup_insert_is_Some, (Hkeys k), !named_iff, map_app.
    rewrite in_app_iff. simpl.
    destruct (decide (UserData.username userData = k)); tauto.
  - intros k. simpl. rewrite (Hkeys k), !named_iff.
    now rewrite (map_setPasswordHash User.username).
  - assert (Hne : newUsername <> User.username u).
    { intros ->. apply (Hfree u); [|reflexivity].
      apply list_elem_of_In, list_elem_of_lookup. eauto. }
    assert (Hother : forall j v, users (db w) !! j = Some v -> i <> j ->
                                 User.username v <> User.username u).
    { intros j v Hj Hij E. apply Hij. apply (NoDup_lookup _ i j (key u) Hnd).
      - change (map key (users (db w))) with (key <$> users (db w)).
        now rewrite list_lookup_fmap, Hu.
      - change (map key (users (db w))) with (key <$> users (db w)).
        rewrite list_lookup_fmap, Hj. simpl. now rewrite E. }
    intros k. simpl. rewrite lookup_delete_is_Some, lookup_insert_is_Some, (Hkeys k).
    split.
    + intros (Hk & [<-|(_ & v & Hv & <-)]).
      * exists (setUsername newUsername u). split; [|reflexivity].
        apply list_elem_of_In, list_elem_of_lookup. exists i.
        now rewrite list_lookup_alter_eq, Hu.
      * exists v. split; [|reflexivity].
        apply list_elem_of_In, list_elem_of_lookup in Hv as (j & Hj).
        apply list_elem_of_In, list_elem_of_lookup. exists j.
        rewrite list_lookup_alter_ne; [exact Hj|]. intros <-.
        rewrite Hu in Hj. injection Hj as <-. now apply Hk.
    + intros (v & Hv & <-).
      apply list_elem_of_In, list_elem_of_lookup in Hv as (j & Hj).
      destruct (decide (i = j)) as [<-|Hij].
      * rewrite list_lookup_alter_eq, Hu in Hj. injection Hj as <-. simpl.
        split; [congruence | now left].
      * rewrite list_lookup_alter_ne in Hj by assumption.
        pose proof (Hother j v Hj Hij) as Hvu.
        split; [congruence|].
        destruct (decide (newUsername = User.username v)); [now left | right].
        split; [assumption|]. exists v. split; [|reflexivity].
        apply list_elem_of_In, list_elem_of_lookup. eauto.
Qed.

Lemma reachable_keys_are_users w :
  reachable hashString btoa atob isoDate w -> keys_are_users w.
Proof.
  induction 1 as [|w call Hreach IH].
  - intros k. simpl. rewrite lookup_empty. split.
    + intros [x Hx]. discriminate.
    + intros (u & [] & _).
  - eapply keys_are_users_change;
      [apply exec_change | now apply (reachable_usernames_unique hashString btoa atob isoDate)
      | exact IH].
Qed.

Lemma reachable_directory_stored w :
  reachable hashString btoa atob isoDate w -> directory_stored w.
Proof.
  induction 1 as [|w call _ IH].
  - now right.
  - eapply directory_stored_change; [apply exec_change | exact IH].
Qed.


(** X3. In every state the API operations reach, the database keeps a
    customer list for exactly the names of the directory, the browser
    storage holds the same lists under the same names, and it holds the
    directory as soon as somebody has registered. *)
Theorem X3_storage_mirrors_the_database :
  forall w,
    reachable hashString btoa atob isoDate w ->
    (forall name, is_Some (customers (db w) !! name) <->
                  exists u, In u (users (db w)) /\ User.username u = name) /\
    debtBookData (localStorage w) = customers (db w) /\
    (debtBookUsers (localStorage w) = Some (users (db w)) \/
     debtBookUsers (localStorage w) = None /\ users (db w) = []).
Proof.
  intros w Hreach.
  destruct (reachable_well_formed hashString btoa atob isoDate w Hreach)
    as (_ & _ & Hdata & _).
  split; [apply (reachable_keys_are_users w Hreach)|].
  split; [exact Hdata | apply (reachable_directory_stored w Hreach)].
Qed.

(** *** Loading *)

Lemma lookup_loaded (data : gmap string (list (Customer.t number))) us
    (m : gmap string (list (Customer.t number))) k :
  fold_left
    (fun m user =>
       <[User.username user :=
           match data !! User.username user with Some parsed => parsed | None => [] end]> m)
    us m !! k
  = if existsb (fun u => String.eqb (User.username u) k) us
    then Some (match data !! k with Some parsed => parsed | None => [] end)
    else m !! k.
Proof.
  revert m. induction us as [|a us IH]; intros m; simpl; [reflexivity|].
  rewrite IH. destruct (existsb _ us).
  - now rewrite orb_true_r.
  - rewrite orb_false_r. destruct (String.eqb_spec (User.username a) k) as [<-|Hne].
    + now rewrite lookup_insert_eq.
    + now rewrite lookup_insert_ne.
Qed.


(** X5. Nothing is lost when the page is loaded again: in every state the
    API operations reach, loading the database from the browser storage
    gives the very state, database and storage. *)
Theorem X5_reload_restores_the_state :
  forall w,
    reachable hashString btoa atob isoDate w ->
    pageLoad (localStorage w) = w.
Proof.
  intros w Hreach.
  destruct (reachable_well_formed hashString btoa atob isoDate w Hreach)
    as (_ & Hlist & Hdata & _).
  pose proof (reachable_keys_are_users w Hreach) as Hkeys.
  pose proof (reachable_directory_stored w Hreach) as Hdir.
  assert (Hus : default [] (debtBookUsers (localStorage w)) = users (db w)).
  { destruct Hdir as [->|[-> ->]]; reflexivity. }
  assert (Hdb : db (pageLoad (localStorage w)) = db w).
  { destruct w as [[us m] ls]. simpl in *. unfold pageLoad, initDb. simpl.
    assert (E : match debtBookUsers ls with Some parsed => parsed | None => [] end = us)
      by (now destruct (debtBookUsers ls)).
    rewrite E. f_equal. apply map_eq. intros k.
    rewrite lookup_loaded, lookup_empty, Hdata.
    destruct (existsb _ us) eqn:Hex.
    - apply existsb_exists in Hex as (u & Hu & Ek). apply String.eqb_eq in Ek. subst k.
      destruct (Hlist u Hu) as [cs Hcs]. now rewrite Hcs.
    - destruct (m !! k) as [cs|] eqn:Hk; [|reflexivity].
      destruct (proj1 (Hkeys k)) as (u & Hu & Ek); [simpl; rewrite Hk; eauto|].
      simpl in Hu.
      assert (existsb (fun u => String.eqb (User.username u) k) us = true) as Ht.
      { apply existsb_exists. exists u. split; [exact Hu | now apply String.eqb_eq]. }
      congruence. }
  destruct w as [d ls]. unfold pageLoad, initDb in *. simpl in *. now rewrite Hdb.
Qed.

End StorageProperties.

(** ** The customer screens *)

Section ScreenProperties.
Context {number : Type}.
Variable atob : string -> option string.
Variable isoDate : string -> string.

Abbreviation W := (World number).
Implicit Types (w : W) (cs : list (Customer.t number)) (v : Ui.View (number := number)).

Lemma in_sync_inv v w :
  Ui.in_sync atob v w ->
  exists token username,
    Ui.authToken v = Some token /\ logged_in atob w token username /\
    Ui.customers v = default [] (customers (db w) !! username).
Proof.
  intros (token & Htok & Hget). exists token.
  destruct (authenticate_cases atob Unauthorized token w) as [E|(username & Hin & _)].
  - unfold getCustomers in Hget. now rewrite (bind_Throw _ _ _ _ _ E) in Hget.
  - exists username. rewrite (getCustomers_run atob _ _ _ Hin) in Hget.
    injection Hget as Hget. auto.
Qed.

Lemma in_sync_intro v w token username :
  Ui.authToken v = Some token -> logged_in atob w token username ->
  Ui.customers v = default [] (customers (db w) !! username) ->
  Ui.in_sync atob v w.
Proof.
  intros Htok Hin Hcs. exists token. split; [exact Htok|].
  rewrite (getCustomers_run atob _ _ _ Hin). now rewrite Hcs.
Qed.

(** With identifiers that are unique, renaming every customer of the
    identifier renames the first one. *)
Lemma map_rename_first cs customerId newName i c :
  NoDup (map Customer.id cs) ->
  findIndex (hasId customerId) cs = Some i -> cs !! i = Some c ->
  map (fun c => if String.eqb (Customer.id c) customerId then setName newName c else c) cs
  = <[i := setName newName c]> cs.
Proof.
  intros Hnd Hi Hc.
  destruct (findIndex_Some _ _ _ Hi) as (c' & Hc' & Hp & _).
  rewrite Hc in Hc'. injection Hc' as <-.
  apply list_eq. intros j.
  change (map ?f cs) with (f <$> cs). rewrite list_lookup_fmap.
  destruct (decide (i = j)) as [<-|Hij].
  - rewrite list_lookup_insert_eq by (now apply lookup_lt_Some with c).
    rewrite Hc. simpl. unfold hasId in Hp. now rewrite Hp.
  - rewrite list_lookup_insert_ne by assumption.
    destruct (cs !! j) as [y|] eqn:Hy; [|reflexivity]. simpl.
    destruct (String.eqb_spec (Customer.id y) customerId) as [E|_]; [|reflexivity].
    destruct Hij. apply (NoDup_lookup _ i j customerId Hnd).
    + change (map Customer.id cs) with (Customer.id <$> cs).
      rewrite list_lookup_fmap, Hc. simpl. f_equal. now apply String.eqb_eq.
    + change (map Customer.id cs) with (Customer.id <$> cs).
      rewrite list_lookup_fmap, Hy. simpl. now f_equal.
Qed.

Lemma no_list_TypeError w token username :
  logged_in atob w token username -> customers (db w) !! username = None ->
  (forall now name, addCustomer atob now token name w = Throw TypeError w) /\
  (forall customerId newName,
      renameCustomer atob token customerId newName w = Throw TypeError w) /\
  (forall customerId, deleteCustomer atob token customerId w = Throw TypeError w).
Proof.
  intros Hin Hcs.
  pose proof (authenticate_logged_in atob Unauthorized _ _ _ Hin) as E.
  split; [|split]; intros.
  - unfold addCustomer. rewrite (bind_Return _ _ _ _ _ E).
    unfold customersOf, bind, getDb. now rewrite Hcs.
  - unfold renameCustomer, findCustomer. rewrite (bind_Return _ _ _ _ _ E).
    unfold customersOf, bind, getDb. now rewrite Hcs.
  - unfold deleteCustomer. rewrite (bind_Return _ _ _ _ _ E).
    unfold customersOf, bind, getDb. now rewrite Hcs.
Qed.

(** After a customer operation the session is still a session, and a
    failed operation has left the state alone. *)
Lemma customer_call_session (call : Call (number := number)) token username w :
  tokenOf call = Some token -> logged_in atob w token username ->
  logged_in atob (state_of (exec (fun s => s) (fun s => s) atob isoDate call w))
    token username /\
  (forall e w', exec (fun s => s) (fun s => s) atob isoDate call w = Throw e w' -> w' = w).
Proof.
  intros Htok Hin. split.
  - destruct (customer_call_state (fun s => s) (fun s => s) atob isoDate call token w Htok)
      as [->|(username' & cs' & _ & ->)]; exact Hin.
  - intros e w' H.
    exact (atomic_exec (fun s => s) (fun s => s) atob isoDate call w e w' H).
Qed.

Lemma refetch_in_sync token username message v w :
  Ui.authToken v = Some token -> logged_in atob w token username ->
  let (v', w') := Ui.refetch atob token message v w in Ui.in_sync atob v' w'.
Proof.
  intros Htok Hin. unfold Ui.refetch.
  rewrite (getCustomers_run atob _ _ _ Hin).
  now apply (in_sync_intro _ w token username).
Qed.

(** X16. The list on the screen follows the database. When the screen
    shows what [getCustomers] returns for the session, it still does after
    every handler of the customer screens, whether the API call of the
    handler returned or threw. For the rename handler this needs the
    identifiers of the shown customers to be distinct: the screen renames
    every customer of the identifier, the API the first one. *)
Theorem X16_screen_follows_the_database :
  forall (e : Ui.Event (number := number)) v w,
    Ui.in_sync atob v w ->
    (forall customerId newName,
        e = Ui.OnRenameCustomer customerId newName ->
        NoDup (map Customer.id (Ui.customers v))) ->
    Ui.in_sync atob (fst (Ui.handle atob isoDate e v w)) (snd (Ui.handle atob isoDate e v w)).
Proof.
  intros e v w Hsync Hids.
  destruct (in_sync_inv v w Hsync) as (token & username & Htok & Hin & Hcs).
  assert (Htx : forall (call : Call (number := number)) A (m : M W A) f message,
    tokenOf call = Some token ->
    exec (fun s => s) (fun s => s) atob isoDate call = fmap_M f m ->
    Ui.in_sync atob
      (fst match m w with
           | Return _ w' => Ui.refetch atob token message v w'
           | Throw _ w' => (Ui.alert message v, w')
           end)
      (snd match m w with
           | Return _ w' => Ui.refetch atob token message v w'
           | Throw _ w' => (Ui.alert message v, w')
           end)).
  { intros call A m f message Hcall Hexec.
    destruct (customer_call_session call token username w Hcall Hin) as [Hin' Hatomic].
    rewrite Hexec in Hin', Hatomic. rewrite state_of_fmap in Hin'.
    destruct (m w) as [r w1|e1 w1] eqn:Hm.
    - simpl in Hin'.
      pose proof (refetch_in_sync token username message v w1 Htok Hin') as H.
      now destruct (Ui.refetch atob token message v w1).
    - rewrite (Hatomic e1 w1) by (unfold fmap_M, bind; now rewrite Hm).
      simpl. now apply (in_sync_intro _ w token username). }
  destruct e as [now name|customerId newName|customerId|now customerId p q a d
                |customerId transactionId|customerId transactionId];
    unfold Ui.handle;
    [unfold Ui.handleAddCustomer | unfold Ui.handleRenameCustomer
    | unfold Ui.handleDeleteCustomer | unfold Ui.handleAddTransaction
    | unfold Ui.handleToggleTransactionPaid | unfold Ui.handleDeleteTransaction];
    unfold Ui.withToken; rewrite Htok;
    (destruct (Str.falsy token); [exact Hsync|]).
  - destruct (customers (db w) !! username) as [cs|] eqn:Hlist.
    + rewrite (addCustomer_run atob now w token username name cs Hin Hlist).
      apply (in_sync_intro _ _ token username); [exact Htok | exact Hin|].
      simpl. rewrite lookup_insert_eq. simpl. now rewrite Hcs.
    + rewrite (proj1 (no_list_TypeError w token username Hin Hlist)).
      apply (in_sync_intro _ w token username); [exact Htok | exact Hin|].
      simpl. now rewrite Hlist.
  - destruct (customers (db w) !! username) as [cs|] eqn:Hlist.
    + simpl in Hcs. destruct (findIndex (hasId customerId) cs) as [i|] eqn:Hi.
      * destruct (findIndex_Some _ _ _ Hi) as (c & Hc & _).
        rewrite (renameCustomer_run atob w token username customerId newName cs i c
                   Hin Hlist Hi Hc).
        apply (in_sync_intro _ _ token username); [exact Htok | exact Hin|].
        simpl. rewrite lookup_insert_eq. simpl. rewrite Hcs.
        apply map_rename_first; [|exact Hi | exact Hc].
        rewrite <- Hcs. now apply (Hids customerId newName).
      * unfold renameCustomer.
        rewrite (bind_Return _ _ _ _ _ (authenticate_logged_in atob _ _ _ _ Hin)).
        rewrite (bind_Throw _ _ _ _ _ (findCustomer_None _ _ _ _ Hlist Hi)).
        apply (in_sync_intro _ w token username); [exact Htok | exact Hin|].
        simpl. now rewrite Hlist.
    + rewrite (proj1 (proj2 (no_list_TypeError w token username Hin Hlist))).
      apply (in_sync_intro _ w token username); [exact Htok | exact Hin|].
      simpl. now rewrite Hlist.
  - destruct (customers (db w) !! username) as [cs|] eqn:Hlist.
    + rewrite (deleteCustomer_run atob w token username customerId cs Hin Hlist).
      apply (in_sync_intro _ _ token username); [exact Htok | exact Hin|].
      simpl. rewrite lookup_insert_eq. simpl. now rewrite Hcs.
    + rewrite (proj2 (proj2 (no_list_TypeError w token username Hin Hlist))).
      apply (in_sync_intro _ w token username); [exact Htok | exact Hin|].
      simpl. now rewrite Hlist.
  - exact (Htx (AddTransaction now token customerId
                  {| TxData.productName := p; TxData.quantity := q;
                     TxData.price := a; TxData.date := d |}) _ _ _ _ eq_refl eq_refl).
  - exact (Htx (ToggleTransactionPaid token customerId transactionId) _ _ _ _
             eq_refl eq_refl).
  - exact (Htx (DeleteTransaction token customerId transactionId) _ _ _ _
             eq_refl eq_refl).
Qed.

End ScreenProperties.

(** ** The profile dialog and the forms *)

Section ProfileProperties.
Context {number : Type}.
Variable hashString : string -> string.
Variable btoa : string -> string.
Variable atob : string -> option string.

Abbreviation W := (World number).
Implicit Types (w : W) (st : App.State).

Lemma falsy_nonempty s : Str.falsy s = false -> s <> "".
Proof. now destruct s. Qed.

(** X18. The profile dialog stores no empty name: when no registered
    name is empty, none is after [handleUpdateUsername], whatever is typed
    and whatever the session is. The guard is in the component;
    [updateUsername] itself takes the empty name. *)
Theorem X18_profile_dialog_stores_no_empty_name :
  forall st w newUsername,
    (forall u, In u (users (db w)) -> User.username u <> "") ->
    forall u,
      In u (users (db (snd (App.handleUpdateUsername btoa atob newUsername st w)))) ->
      User.username u <> "".
Proof.
  intros st w newUsername Hw. unfold App.handleUpdateUsername.
  destruct (App.authToken st) as [token|]; [|exact Hw].
  destruct (Str.falsy token); [exact Hw|]. cbv zeta.
  destruct (App.sameAsCurrent _ st); [exact Hw|].
  destruct (Str.falsy (Str.trim newUsername)) eqn:Hf; [exact Hw|].
  pose proof (exec_change (number := number) (fun s => s) btoa atob (fun s => s)
                (UpdateUsername token (Str.trim newUsername)) w) as Hch.
  unfold exec in Hch. rewrite state_of_fmap in Hch.
  destruct (updateUsername btoa atob token (Str.trim newUsername) w)
    as [[newToken updatedUsername] w'|e w']; simpl in *.
  - inversion Hch as [| | |? ? i u0 Hu0 _| | | | | |]; subst; [exact Hw|].
    intros u [Hu|(x & _ & ->)]%In_alter; [now apply Hw|].
    simpl. now apply falsy_nonempty.
  - inversion Hch as [| | |? ? i u0 Hu0 _| | | | | |]; subst; [exact Hw|].
    intros u [Hu|(x & _ & ->)]%In_alter; [now apply Hw|].
    simpl. now apply falsy_nonempty.
Qed.




Hypothesis atob_btoa : forall s, atob (btoa s) = Some s.


End ProfileProperties.

(** ** Totals, continued *)

Section LedgerTotals.
Context {number : Type}.
Variable atob : string -> option string.
Variable isoDate : string -> string.
Variable zero : number.
Variables add mul : number -> number -> number.

Implicit Types (ts : list (Transaction.t number)) (cs : list (Customer.t number)).

Abbreviation line := (fun t : Transaction.t number =>
  mul (Transaction.amount t) (Transaction.quantity t)).




Hypothesis add_assoc : forall a b c, add a (add b c) = add (add a b) c.
Hypothesis add_zero_l : forall a, add zero a = a.
Hypothesis add_zero_r : forall a, add a zero = a.




Hypothesis mul_comm : forall a b, mul a b = mul b a.



End LedgerTotals.

(** ** Hashes *)

Section HashProperties.

Implicit Types (buffer : list Byte.byte) (b : Byte.byte).

Abbreviation hexPair b :=
  (Crypto.padStart 2 "0" (Crypto.toString16 (Byte.to_N b))).

(** Every byte is written as two lowercase hexadecimal digits, the high
    one first. *)
Lemma hexPair_digits b :
  exists hi lo,
    hexPair b = String hi (String lo EmptyString) /\
    match Crypto.hexValue hi, Crypto.hexValue lo with
    | Some h, Some l => Byte.of_N (h * 16 + l) = Some b
    | _, _ => False
    end.
Proof.
  destruct b; do 2 eexists; (split; [reflexivity | vm_compute; reflexivity]).
Qed.

Lemma concat_cons (x : string) (xs : list string) :
  String.concat "" (x :: xs) = String.append x (String.concat "" xs).
Proof.
  destruct xs as [|y ys]; simpl; [|reflexivity].
  induction x as [|a x IH]; [reflexivity|].
  change (String a x = String a (String.append x "")). now f_equal.
Qed.

Lemma bufferToHex_cons b buffer :
  exists hi lo,
    Crypto.bufferToHex (b :: buffer) = String hi (String lo (Crypto.bufferToHex buffer)) /\
    match Crypto.hexValue hi, Crypto.hexValue lo with
    | Some h, Some l => Byte.of_N (h * 16 + l) = Some b
    | _, _ => False
    end.
Proof.
  destruct (hexPair_digits b) as (hi & lo & E & H). exists hi, lo. split; [|exact H].
  unfold Crypto.bufferToHex. cbn [map]. rewrite concat_cons.
  now rewrite E.
Qed.

Lemma hexToBuffer_bufferToHex buffer :
  Crypto.hexToBuffer (Crypto.bufferToHex buffer) = Some buffer.
Proof.
  induction buffer as [|b buffer IH]; [reflexivity|].
  destruct (bufferToHex_cons b buffer) as (hi & lo & -> & H).
  cbn [Crypto.hexToBuffer]. rewrite IH.
  destruct (Crypto.hexValue hi) as [h|]; [|contradiction].
  destruct (Crypto.hexValue lo) as [l|]; [|contradiction].
  now rewrite H.
Qed.

Lemma bufferToHex_length buffer :
  String.length (Crypto.bufferToHex buffer) = 2 * length buffer.
Proof.
  induction buffer as [|b buffer IH]; [reflexivity|].
  destruct (bufferToHex_cons b buffer) as (hi & lo & -> & _).
  cbn [String.length length]. rewrite IH. lia.
Qed.

(** X23. [bufferToHex] writes two characters for every byte, each one of
    [0]..[9], [a]..[f]; reading the digits back gives the bytes, so two
    buffers with the same text are the same buffer. *)
Theorem X23_bufferToHex_is_faithful :
  forall buffer,
    String.length (Crypto.bufferToHex buffer) = 2 * length buffer /\
    Forall (fun c => is_Some (Crypto.hexValue c))
      (list_ascii_of_string (Crypto.bufferToHex buffer)) /\
    Crypto.hexToBuffer (Crypto.bufferToHex buffer) = Some buffer /\
    forall buffer', Crypto.bufferToHex buffer = Crypto.bufferToHex buffer' ->
                    buffer = buffer'.
Proof.
  intros buffer. split; [apply bufferToHex_length|]. split; [|split].
  - induction buffer as [|b buffer IH]; [constructor|].
    destruct (bufferToHex_cons b buffer) as (hi & lo & -> & H).
    cbn [list_ascii_of_string].
    destruct (Crypto.hexValue hi) as [h|] eqn:Hh; [|contradiction].
    destruct (Crypto.hexValue lo) as [l|] eqn:Hl; [|contradiction].
    constructor; [rewrite Hh; eauto|]. constructor; [rewrite Hl; eauto | exact IH].
  - apply hexToBuffer_bufferToHex.
  - intros buffer' E.
    assert (Some buffer = Some buffer') as [= ->]; [|reflexivity].
    now rewrite <- (hexToBuffer_bufferToHex buffer), E, hexToBuffer_bufferToHex.
Qed.

Variable encode : string -> list Byte.byte.
Variable digest : list Byte.byte -> list Byte.byte.

Lemma hashString_inj (a b : string) :
  Crypto.hashString encode digest a = Crypto.hashString encode digest b <->
  digest (encode a) = digest (encode b).
Proof.
  unfold Crypto.hashString. split; [|now intros ->].
  intros E. assert (Some (digest (encode a)) = Some (digest (encode b))) as [= ->];
    [|reflexivity].
  now rewrite <- (hexToBuffer_bufferToHex (digest (encode a))), E,
    hexToBuffer_bufferToHex.
Qed.

(** X24. The hash of a string has two characters for every byte of the
    digest of its encoding, 64 for the 32 bytes of SHA-256, and two strings
    have the same hash exactly when their encodings have the same digest. *)
Theorem X24_hashString_is_the_digest_in_hex :
  forall a b : string,
    String.length (Crypto.hashString encode digest a)
      = 2 * length (digest (encode a)) /\
    (length (digest (encode a)) = 32 ->
     String.length (Crypto.hashString encode digest a) = 64) /\
    (Crypto.hashString encode digest a = Crypto.hashString encode digest b <->
     digest (encode a) = digest (encode b)).
Proof.
  intros a b. split; [apply bufferToHex_length|]. split; [|apply hashString_inj].
  intros H. unfold Crypto.hashString. rewrite bufferToHex_length. lia.
Qed.


End HashProperties.

(** ** The history of a customer *)

Section HistoryProperties.
Context {number : Type}.

Implicit Types (ts : list (Transaction.t number)).

Abbreviation onDay := (fun (day : string) (t : Transaction.t number) =>
  String.eqb (firstPart (Transaction.date t)) day).

Abbreviation inherited := (fun (day : string) =>
  existsb (String.eqb day) objectPrototypeKeys).

Lemma grouped_from ts (acc : gmap string (list (Transaction.t number))) :
  Forall (fun t => inherited (firstPart (Transaction.date t)) = false) ts ->
  exists groups,
    fold_left groupTransaction ts (inr acc) = inr groups /\
    forall day,
      groups !! day
      = match List.filter (onDay day) ts with
        | [] => acc !! day
        | group => Some (default [] (acc !! day) ++ group)
        end.
Proof.
  intros Hts. revert acc.
  induction Hts as [|t ts Ht _ IH]; intros acc; [exists acc; auto|].
  cbn [fold_left List.filter]. unfold groupTransaction at 2. rewrite Ht.
  set (dateKey := firstPart (Transaction.date t)).
  destruct (IH (alter (fun group => group ++ [t]) dateKey
                  match acc !! dateKey with
                  | Some _ => acc
                  | None => <[dateKey := []]> acc
                  end)) as (groups & -> & Hgroups).
  exists groups. split; [reflexivity|]. intros day. rewrite Hgroups.
  destruct (String.eqb_spec dateKey day) as [<-|Hne].
  - rewrite lookup_alter_eq.
    assert (E : match acc !! dateKey with
                | Some _ => acc
                | None => <[dateKey := []]> acc
                end !! dateKey = Some (default [] (acc !! dateKey))).
    { destruct (acc !! dateKey) as [g|] eqn:Hg; [exact Hg | apply lookup_insert_eq]. }
    rewrite E. simpl.
    destruct (List.filter _ ts) as [|x g]; [reflexivity|].
    now rewrite <- app_assoc.
  - rewrite lookup_alter_ne by assumption.
    assert (E : match acc !! dateKey with
                | Some _ => acc
                | None => <[dateKey := []]> acc
                end !! day = acc !! day).
    { destruct (acc !! dateKey); [reflexivity|]. now rewrite lookup_insert_ne. }
    now rewrite E.
Qed.

Lemma grouped_thrown ts e :
  fold_left (groupTransaction (number := number)) ts (inl e) = inl e.
Proof. induction ts as [|t ts IH]; [reflexivity | exact IH]. Qed.

(** X26. The history groups the transactions by day. When no day of the
    list is a name that an object literal inherits, the group of a day
    lists the transactions of that day, all of them and in the order of the
    list, and a day without a transaction has no group. When some day is
    such a name, the grouping throws a [TypeError]. *)
Theorem X26_groupedTransactions_groups_by_day :
  forall ts,
    (Forall (fun t => inherited (firstPart (Transaction.date t)) = false) ts ->
     exists groups,
       groupedTransactions ts = inr groups /\
       forall day,
         groups !! day
         = match List.filter (onDay day) ts with
           | [] => None
           | group => Some group
           end) /\
    (Exists (fun t => inherited (firstPart (Transaction.date t)) = true) ts ->
     groupedTransactions ts = inl TypeError).
Proof.
  intros ts. unfold groupedTransactions. split.
  - intros Hts. destruct (grouped_from ts ∅ Hts) as (groups & E & Hgroups).
    exists groups. split; [exact E|]. intros day. rewrite Hgroups, lookup_empty.
    now destruct (List.filter _ ts).
  - generalize (∅ : gmap string (list (Transaction.t number))) as acc.
    induction ts as [|t ts IH]; intros acc Hex; [inversion Hex|].
    cbn [fold_left]. unfold groupTransaction at 2.
    destruct (inherited (firstPart (Transaction.date t))) eqn:Ht.
    + apply grouped_thrown.
    + apply IH. inversion Hex as [? ? Ht'|]; subst; [congruence | assumption].
Qed.

End HistoryProperties.

(** ** The further properties on the concrete ledger *)

Lemma sample_reachable :
  reachable Sample.hashString Base64.btoa Base64.atob Sample.isoDate Sample.ledger.
Proof.
  unfold Sample.ledger, Sample.shop, Sample.run. cbn [fold_left]. unfold Sample.exec.
  repeat apply reachable_call. apply reachable_empty.
Qed.

Lemma sample_alice : In Sample.alice_user (users (db Sample.ledger)).
Proof. rewrite sample_users. now left. Qed.

Lemma sample_stranger :
  forall username, ~ logged_in Base64.atob Sample.ledger Visit.stranger username.
Proof.
  intros username (Hat & _ & u & Hu & E).
  rewrite sample_users in Hu. destruct Hu as [<-|[]].
  vm_compute in Hat. rewrite <- E in Hat. discriminate Hat.
Qed.

Lemma sample_in_sync : Ui.in_sync Base64.atob Visit.screen Sample.ledger.
Proof.
  exists Sample.token. split; [reflexivity|].
  rewrite (getCustomers_run Base64.atob _ _ _ sample_logged_in).
  now rewrite sample_customers.
Qed.




Lemma X3_witness :
  is_Some (customers (db Sample.ledger) !! "Alice") /\
  debtBookData (localStorage Sample.ledger) = customers (db Sample.ledger) /\
  debtBookUsers (localStorage Sample.ledger) = Some (users (db Sample.ledger)).
Proof.
  destruct (X3_storage_mirrors_the_database Sample.hashString Base64.btoa Base64.atob
              Sample.isoDate Sample.ledger sample_reachable) as (Hkeys & Hdata & Hdir).
  split; [|split; [exact Hdata|]].
  - apply Hkeys. exists Sample.alice_user. split; [exact sample_alice | reflexivity].
  - destruct Hdir as [Hdir|[_ Hnone]]; [exact Hdir|].
    rewrite sample_users in Hnone. discriminate Hnone.
Defined.

Lemma X5_witness : pageLoad (localStorage Sample.ledger) = Sample.ledger.
Proof.
  exact (X5_reload_restores_the_state Sample.hashString Base64.btoa Base64.atob
           Sample.isoDate Sample.ledger sample_reachable).
Defined.

Lemma X6_witness :
  Sample.exec (AddCustomer 1700000001000 Visit.stranger "Eve") Sample.ledger
    = Throw Unauthorized Sample.ledger /\
  updateUsername Base64.btoa Base64.atob Visit.stranger "Eve" Sample.ledger
    = Throw InvalidSession Sample.ledger.
Proof.
  destruct (X6_unknown_token_is_refused Sample.hashString Base64.btoa Base64.atob
              Sample.isoDate Sample.ledger Visit.stranger sample_stranger)
    as [Hcall Hrename].
  split; [|exact (Hrename "Eve")].
  exact (Hcall (AddCustomer 1700000001000 Visit.stranger "Eve") eq_refl).
Defined.


Lemma X8_witness :
  customers
    (db (state_of (Sample.exec (DeleteCustomer Sample.token "1700000000000")
                     Sample.ledger))) !! "Carol"
    = customers (db Sample.ledger) !! "Carol" /\
  users (db (state_of (Sample.exec (DeleteCustomer Sample.token "1700000000000")
                         Sample.ledger)))
    = users (db Sample.ledger).
Proof.
  destruct (X8_other_users_are_untouched Sample.hashString Base64.btoa Base64.atob
              Sample.isoDate (DeleteCustomer Sample.token "1700000000000") Sample.token
              Sample.ledger "Carol" eq_refl) as (Hlist & _ & Husers & _).
  - vm_compute. discriminate.
  - split; [exact Hlist | exact Husers].
Defined.

Lemma X9_witness :
  exists w',
    addCustomer Base64.atob 1700000001000 Sample.token "Eve" Sample.ledger
      = Return {| Customer.id := toString 1700000001000; Customer.name := "Eve";
                  Customer.transactions := [] |} w' /\
    getCustomers Base64.atob Sample.token w'
      = Return ([Sample.bob]
                  ++ [ {| Customer.id := toString 1700000001000; Customer.name := "Eve";
                          Customer.transactions := [] |} ]) w'.
Proof.
  exact (X9_addCustomer_appends Base64.atob 1700000001000 Sample.ledger Sample.token
           "Alice" "Eve" [Sample.bob] sample_logged_in sample_customers).
Defined.

Lemma X10_witness :
  (exists c' w',
      renameCustomer Base64.atob Sample.token "1700000000000" "Robert" Sample.ledger
        = Return c' w' /\
      Customer.name c' = "Robert" /\
      getCustomers Base64.atob Sample.token w' = Return [c'] w') /\
  renameCustomer Base64.atob Sample.token "1700000000777" "Robert" Sample.ledger
    = Throw CustomerNotFound Sample.ledger.
Proof.
  destruct (X10_renameCustomer_changes_the_name_only Base64.atob Sample.ledger
              Sample.token "Alice" "1700000000000" "Robert" [Sample.bob]
              sample_logged_in sample_customers) as [Hfound _].
  destruct (X10_renameCustomer_changes_the_name_only Base64.atob Sample.ledger
              Sample.token "Alice" "1700000000777" "Robert" [Sample.bob]
              sample_logged_in sample_customers) as [_ Hmissing].
  split.
  - destruct Hfound as (i & c & w' & Hi & Hc & Hrun & Hget); [now left|].
    injection Hi as <-. injection Hc as <-.
    eexists. exists w'. split; [exact Hrun|]. split; [reflexivity | exact Hget].
  - apply Hmissing. intros [H|[]]. discriminate H.
Defined.

Lemma X11_witness :
  exists w',
    deleteTransaction Base64.atob Sample.token "1700000000000" "1700000000500"
      Sample.ledger = Return tt w' /\
    toggleTransactionPaid Base64.atob Sample.token "1700000000000" "1700000000500" w'
      = Throw TransactionNotFound w'.
Proof.
  destruct (X11_deleteTransaction_removes_every_match Base64.atob Sample.ledger
              Sample.token "Alice" "1700000000000" "1700000000500" [Sample.bob] 0
              Sample.bob sample_logged_in sample_customers eq_refl eq_refl)
    as (w' & c' & Hrun & _ & _ & _ & _ & _ & _ & Htoggle); [now left|].
  exists w'. split; [exact Hrun | exact Htoggle].
Defined.

Lemma X12_witness :
  (exists r w',
      toggleTransactionPaid Base64.atob Sample.token "1700000000000" "1700000000500"
        Sample.ledger = Return r w') /\
  toggleTransactionPaid Base64.atob Sample.token "1700000000000" "1700000000777"
    Sample.ledger = Throw TransactionNotFound Sample.ledger.
Proof.
  destruct (X12_toggleTransactionPaid_flips_every_match Base64.atob Sample.ledger
              Sample.token "Alice" "1700000000000" "1700000000500" [Sample.bob] 0
              Sample.bob sample_logged_in sample_customers eq_refl eq_refl)
    as [Hfound _].
  destruct (X12_toggleTransactionPaid_flips_every_match Base64.atob Sample.ledger
              Sample.token "Alice" "1700000000000" "1700000000777" [Sample.bob] 0
              Sample.bob sample_logged_in sample_customers eq_refl eq_refl)
    as [_ Hmissing].
  split.
  - destruct Hfound as (r & w' & _ & _ & _ & Hrun & _); [now left|].
    exists r, w'. exact Hrun.
  - apply Hmissing. intros [H|[]]. discriminate H.
Defined.

Lemma X14_witness :
  (exists w',
      resetPassword Sample.hashString "ALICE" "fresh" Sample.ledger = Return tt w' /\
      customers (db w') = customers (db Sample.ledger) /\
      map User.username (users (db w')) = map User.username (users (db Sample.ledger))) /\
  resetPassword Sample.hashString "Carol" "fresh" Sample.ledger
    = Throw UserNotFound Sample.ledger.
Proof.
  destruct (X14_resetPassword_changes_one_password Sample.hashString Base64.btoa
              Sample.ledger "ALICE" "fresh") as [_ Hfound].
  destruct (X14_resetPassword_changes_one_password Sample.hashString Base64.btoa
              Sample.ledger "Carol" "fresh") as [Hmissing _].
  split.
  - destruct (Hfound sample_unique Sample.alice_user sample_alice eq_refl)
      as (w' & Hrun & Hlists & _ & _ & Hnames & _).
    exists w'. split; [exact Hrun|]. split; [exact Hlists | exact Hnames].
  - apply Hmissing. rewrite sample_users. intros u [<-|[]]. discriminate.
Defined.

Lemma X16_witness :
  Ui.in_sync Base64.atob
    (fst (Ui.handle Base64.atob Sample.isoDate
            (Ui.OnRenameCustomer "1700000000000" "Robert") Visit.screen Sample.ledger))
    (snd (Ui.handle Base64.atob Sample.isoDate
            (Ui.OnRenameCustomer "1700000000000" "Robert") Visit.screen Sample.ledger)).
Proof.
  apply (X16_screen_follows_the_database Base64.atob Sample.isoDate
           (Ui.OnRenameCustomer "1700000000000" "Robert") Visit.screen Sample.ledger
           sample_in_sync).
  intros _ _ _. simpl. apply NoDup_singleton.
Defined.


Lemma X18_witness :
  User.username (setUsername "Alicia" Sample.alice_user) <> "".
Proof.
  apply (X18_profile_dialog_stores_no_empty_name Base64.btoa Base64.atob Sample.editing
           Sample.ledger " Alicia ").
  - rewrite sample_users. intros u [<-|[]]. discriminate.
  - vm_compute. now left.
Defined.







Lemma X26_witness :
  (exists groups,
      groupedTransactions [Sample.pencils_tx; Sample.ink_tx; Sample.pencils_tx]
        = inr groups /\
      groups !! "2024-03-01" = Some [Sample.pencils_tx; Sample.pencils_tx] /\
      groups !! "2024-03-03" = None) /\
  groupedTransactions
    [Transaction.Build "1" "Ink" 1%Z 30%Z false "constructor"] = inl TypeError.
Proof.
  destruct (X26_groupedTransactions_groups_by_day
              [Sample.pencils_tx; Sample.ink_tx; Sample.pencils_tx]) as [Hgroups _].
  destruct (X26_groupedTransactions_groups_by_day
              [Transaction.Build "1" "Ink" 1%Z 30%Z false "constructor"]) as [_ Hthrows].
  split.
  - destruct Hgroups as (groups & Hrun & Hday).
    + repeat (constructor; [reflexivity|]). constructor.
    + exists groups. split; [exact Hrun|]. split; rewrite Hday; reflexivity.
  - apply Hthrows. constructor. reflexivity.
Defined.
